(** * Language tutor backend: the HTTP word endpoints and the LLM services

    A shallow embedding of [src/api/words.py] and [src/services/llm_service.py].
    Python functions that touch the word store, the session registry or a
    language-model agent become state-passing functions that either return a
    value or raise a Python exception; [try]/[except] blocks become handlers.
    Collaborators that live outside these two files (the word store, the
    dialogue and suggestion services called by the API, the agent runtime)
    are fields of an interface class, so every statement about an endpoint
    holds for every implementation of them. *)

From Stdlib Require Import ZArith Ascii String List.
From stdpp Require Import base option list gmap strings pretty.

Local Open Scope Z_scope.
Local Open Scope string_scope.

(** ** Python exceptions and computations *)

Module Py.

(** The exception classes the two files raise or can observe.  Every class is
    a subclass of [Exception], so a handler [except Exception] catches all of
    them. *)
Inductive exn : Type :=
| HTTPException (status_code : Z) (detail : string)
| RuntimeError (msg : string)
| AttributeError (msg : string)
| OtherError (cls : string) (msg : string).

(** [str(e)], as the f-strings of the handlers interpolate it.  Starlette's
    [HTTPException.__str__] prints the status code and the detail. *)
Definition str (e : exn) : string :=
  match e with
  | HTTPException status_code detail => pretty status_code +:+ ": " +:+ detail
  | RuntimeError msg => msg
  | AttributeError msg => msg
  | OtherError _ msg => msg
  end.

Definition is_HTTPException (e : exn) : bool :=
  match e with
  | HTTPException _ _ => true
  | _ => false
  end.

Inductive result (A : Type) : Type :=
| Return (a : A)
| Raise (e : exn).
Arguments Return {A} a.
Arguments Raise {A} e.

(** A computation over a store of type [S]: it ends in a value or in a raised
    exception, and in both cases leaves a store behind. *)
Definition M (S A : Type) : Type := S -> result A * S.

Definition ret {S A} (a : A) : M S A := fun s => (Return a, s).

Definition raise {S A} (e : exn) : M S A := fun s => (Raise e, s).

Definition bind {S A B} (m : M S A) (k : A -> M S B) : M S B :=
  fun s =>
    match m s with
    | (Return a, s') => k a s'
    | (Raise e, s') => (Raise e, s')
    end.

(** [try: m  except Exception as e: h e] *)
Definition try_except {S A} (m : M S A) (h : exn -> M S A) : M S A :=
  fun s =>
    match m s with
    | (Return a, s') => (Return a, s')
    | (Raise e, s') => h e s'
    end.

(** [try: m  except HTTPException: raise  except Exception as e: h e] *)
Definition try_except_reraise_http {S A} (m : M S A) (h : exn -> M S A) : M S A :=
  try_except m (fun e => if is_HTTPException e then raise e else h e).

(** A pure step that may raise, run inside a computation. *)
Definition lift {S A} (r : result A) : M S A := fun s => (r, s).

(** A step that cannot raise, such as reading the clock. *)
Definition total {S A} (f : S -> A * S) : M S A :=
  fun s => let (a, s') := f s in (Return a, s').

End Py.

Import Py.

Declare Scope py_scope.
Delimit Scope py_scope with py.
Notation "'let*' x ':=' m 'in' k" := (bind m (fun x => k))
  (at level 10, x name, m at level 100, k at level 200) : py_scope.
Local Open Scope py_scope.

(** ** The request, response and suggestion models *)

Module Models.

(** The identity the auth verifier resolves; only [user_id] is used. *)
Record User : Type := { user_id : string }.

(** [models.words_model]: the request and response bodies.  [created_at] is a
    timestamp read from the clock. *)
Record WordResponse : Type := {
  wr_id : string;
  wr_user_id : string;
  wr_word : string;
  wr_translation : string;
  wr_example : string;
  wr_created_at : Z
}.

Record WordCreate : Type := {
  wc_user_id : string;
  wc_word : string;
  wc_translation : string;
  wc_example : string
}.

Record WordUpdate : Type := {
  wu_word : option string;
  wu_translation : option string;
  wu_example : option string
}.

Record DialogueMessage : Type := {
  dm_user_id : string;
  dm_message : string
}.

Record DialogueResponse : Type := {
  response : string;
  suggested_words : list string
}.

Record Usage : Type := {
  fr : string;
  translation : string
}.

Record WordSuggestion : Type := {
  new_words : list string;
  usages : gmap string Usage
}.

End Models.

Import Models.

(** ** The HTTP layer, [src/api/words.py] *)

Module WordsApi.

(** What the endpoints import from the rest of the repository: the word store
    of [db.words], the two services, and the clock.  [W] is the state they
    act on. *)
Class Backend (W : Type) : Type := {
  get_user_words : string -> M W (list WordResponse);
  create_word : string -> WordCreate -> M W WordResponse;
  update_word : string -> WordUpdate -> M W (option WordResponse);
  delete_word : string -> M W bool;
  run_dialogue_turn : string -> string -> M W string;
  (* an [async def]: this is the body that runs when the call is awaited *)
  suggest_new_words_for_user : string -> M W (option WordSuggestion);
  datetime_now : W -> Z * W
}.

(** The status line FastAPI sends: 200 for a returned body, the carried code
    for an [HTTPException], 500 for any other exception that escapes. *)
Definition status_of {A} (r : result A) : Z :=
  match r with
  | Return _ => 200
  | Raise (HTTPException status_code _) => status_code
  | Raise _ => 500
  end.

(** The value a Python variable can hold around the suggestion call: the
    coroutine object a call to an [async def] evaluates to, the awaited
    [WordSuggestion], or [None]. *)
Inductive pyobj (W : Type) : Type :=
| PyCoroutine (body : M W (option WordSuggestion))
| PyWordSuggestion (ws : WordSuggestion)
| PyNone.
Arguments PyCoroutine {W} body.
Arguments PyWordSuggestion {W} ws.
Arguments PyNone {W}.

(** Calling an [async def] runs none of its body. *)
Definition call_async {W} (body : M W (option WordSuggestion)) : pyobj W :=
  PyCoroutine body.

(** [await o] *)
Definition await {W} (o : pyobj W) : M W (pyobj W) :=
  match o with
  | PyCoroutine body =>
      let* r := body in
      ret (match r with Some ws => PyWordSuggestion ws | None => PyNone end)
  | PyWordSuggestion _ =>
      raise (OtherError "TypeError" "object WordSuggestion can't be used in 'await' expression")
  | PyNone =>
      raise (OtherError "TypeError" "object NoneType can't be used in 'await' expression")
  end.

(** [o.new_words] *)
Definition getattr_new_words {W} (o : pyobj W) : result (list string) :=
  match o with
  | PyCoroutine _ => Raise (AttributeError "'coroutine' object has no attribute 'new_words'")
  | PyWordSuggestion ws => Return (new_words ws)
  | PyNone => Raise (AttributeError "'NoneType' object has no attribute 'new_words'")
  end.

(** [o and hasattr(o, "new_words")] *)
Definition truthy_with_new_words {W} (o : pyobj W) : option WordSuggestion :=
  match o with
  | PyCoroutine _ => None
  | PyWordSuggestion ws => Some ws
  | PyNone => None
  end.

Section Endpoints.

Context {W : Type} `{Backend W}.

Definition get_user_words_endpoint (user_id' : string) (current_user : User)
  : M W (list WordResponse) :=
  if negb (String.eqb (user_id current_user) user_id') then
    raise (HTTPException 403 "Can only access your own words")
  else
    try_except
      (let* words := get_user_words user_id' in
       ret words)
      (fun e => raise (HTTPException 500 ("Failed to fetch words: " +:+ str e))).

Definition create_word_endpoint (word : WordCreate) (current_user : User)
  : M W WordResponse :=
  if negb (String.eqb (user_id current_user) (wc_user_id word)) then
    raise (HTTPException 403 "Can only create words for yourself")
  else
    try_except
      (let* new_word := create_word (wc_user_id word) word in
       ret new_word)
      (fun e => raise (HTTPException 500 ("Failed to create word: " +:+ str e))).

Definition update_word_endpoint (word_id : string) (updates : WordUpdate)
    (current_user : User) : M W WordResponse :=
  try_except_reraise_http
    (let* updated_word := update_word word_id updates in
     match updated_word with
     | None => raise (HTTPException 404 "Word not found")
     | Some updated_word =>
         if negb (String.eqb (wr_user_id updated_word) (user_id current_user)) then
           raise (HTTPException 403 "Can only update your own words")
         else
           ret updated_word
     end)
    (fun e => raise (HTTPException 500 ("Failed to update word: " +:+ str e))).

Definition delete_word_endpoint (word_id : string) (current_user : User)
  : M W string :=
  try_except_reraise_http
    (let* words := get_user_words (user_id current_user) in
     let word_to_delete := List.find (fun w => String.eqb (wr_id w) word_id) words in
     match word_to_delete with
     | None => raise (HTTPException 404 "Word not found")
     | Some _ =>
         let* success := delete_word word_id in
         if negb success then
           raise (HTTPException 404 "Word not found")
         else
           ret "Word deleted successfully"
     end)
    (fun e => raise (HTTPException 500 ("Failed to delete word: " +:+ str e))).

(** The inner [try] of [chat_with_ai]: the suggestion function is called but
    not awaited, and [.new_words] is read off what the call evaluates to. *)
Definition chat_suggested_words (user_id' : string) : M W (list string) :=
  try_except
    (let word_suggestion := call_async (suggest_new_words_for_user user_id') in
     let* suggested_words := lift (getattr_new_words word_suggestion) in
     ret suggested_words)
    (fun _ => ret []).

Definition chat_with_ai (message : DialogueMessage) (current_user : User)
  : M W DialogueResponse :=
  if negb (String.eqb (user_id current_user) (dm_user_id message)) then
    raise (HTTPException 403 "Can only send messages for yourself")
  else
    try_except
      (let* ai_response := run_dialogue_turn (dm_user_id message) (dm_message message) in
       let* suggested_words := chat_suggested_words (dm_user_id message) in
       ret {| response := ai_response; suggested_words := suggested_words |})
      (fun e => raise (HTTPException 500 ("Failed to process message: " +:+ str e))).

(** The [for word in word_suggestion.new_words] loop, with the list being
    built as its accumulator. *)
Fixpoint new_word_objs_loop (user_id' : string) (word_suggestion : WordSuggestion)
    (words : list string) (new_word_objs : list WordResponse)
  : M W (list WordResponse) :=
  match words with
  | [] => ret new_word_objs
  | word :: rest =>
      match usages word_suggestion !! word with
      | Some usage =>
          let* created_at := total datetime_now in
          let word_response :=
            {| wr_id := "new_" +:+ word;
               wr_user_id := user_id';
               wr_word := word;
               wr_translation := translation usage;
               wr_example := fr usage;
               wr_created_at := created_at |} in
          new_word_objs_loop user_id' word_suggestion rest (new_word_objs ++ [word_response])
      | None => new_word_objs_loop user_id' word_suggestion rest new_word_objs
      end
  end.

Definition get_new_words_endpoint (user_id' : string) (current_user : User)
  : M W (list WordResponse) :=
  if negb (String.eqb (user_id current_user) user_id') then
    raise (HTTPException 403 "Can only access your own new words")
  else
    try_except
      (let* word_suggestion := await (call_async (suggest_new_words_for_user user_id')) in
       match truthy_with_new_words word_suggestion with
       | Some ws => new_word_objs_loop user_id' ws (new_words ws) []
       | None => ret []
       end)
      (fun e => raise (HTTPException 500 ("Failed to fetch new words: " +:+ str e))).

End Endpoints.

(** A Word-shaped entry for a suggested word: the synthetic id, the owner,
    and the translation and example of the word's usage entry. *)
Definition suggested_entry (user_id' : string) (ws : WordSuggestion) (o : WordResponse)
  : Prop :=
  wr_id o = "new_" +:+ wr_word o
  /\ wr_user_id o = user_id'
  /\ exists usage,
       usages ws !! wr_word o = Some usage
       /\ wr_translation o = translation usage
       /\ wr_example o = fr usage.

(** The suggested words that have a usage entry, in suggestion order. *)
Definition words_with_usage (ws : WordSuggestion) : list string :=
  filter (fun word => is_Some (usages ws !! word)) (new_words ws).

End WordsApi.

(** ** The LLM services, [src/services/llm_service.py] *)

Module LlmService.

(** *** [json.dumps(words, ensure_ascii=False)] on a list of strings *)

Definition hex_digit (n : N) : ascii :=
  match n with
  | 0%N => "0" | 1%N => "1" | 2%N => "2" | 3%N => "3"
  | 4%N => "4" | 5%N => "5" | 6%N => "6" | 7%N => "7"
  | 8%N => "8" | 9%N => "9" | 10%N => "a" | 11%N => "b"
  | 12%N => "c" | 13%N => "d" | 14%N => "e" | _ => "f"
  end%char.

Definition quote : ascii := "034"%char.
Definition backslash : ascii := "092"%char.

(** The encoder's escape table: the quote, the backslash, the five named
    control characters, and [\u00XX] for the other code points below 0x20.
    Everything else, non-ASCII included, is copied. *)
Definition json_escape (c : ascii) : string :=
  if Ascii.eqb c quote then String backslash (String quote "")
  else if Ascii.eqb c backslash then String backslash (String backslash "")
  else if Ascii.eqb c "008"%char then String backslash "b"
  else if Ascii.eqb c "012"%char then String backslash "f"
  else if Ascii.eqb c "010"%char then String backslash "n"
  else if Ascii.eqb c "013"%char then String backslash "r"
  else if Ascii.eqb c "009"%char then String backslash "t"
  else
    let n := N_of_ascii c in
    if (n <? 32)%N then
      String backslash
        ("u00" +:+ String (hex_digit (n / 16)) (String (hex_digit (n mod 16)) ""))
    else String c "".

Fixpoint json_escape_all (s : string) : string :=
  match s with
  | EmptyString => ""
  | String c rest => json_escape c +:+ json_escape_all rest
  end.

Definition json_dumps_str (s : string) : string :=
  String quote (json_escape_all s +:+ String quote "").

Fixpoint json_join (items : list string) : string :=
  match items with
  | [] => ""
  | [x] => x
  | x :: rest => x +:+ ", " +:+ json_join rest
  end.

Definition json_dumps (words : list string) : string :=
  "[" +:+ json_join (map json_dumps_str words) +:+ "]".

(** *** Sessions *)

(** [DialogueSession]: the lazily created agent and the history. *)
Record DialogueSession (Agent ModelMessage : Type) : Type := {
  dialogue_agent : option Agent;
  message_history : list ModelMessage
}.
Arguments dialogue_agent {Agent ModelMessage} _.
Arguments message_history {Agent ModelMessage} _.
Arguments Build_DialogueSession {Agent ModelMessage} _ _.

(** The process-wide state the services act on: the session registry, keyed
    by user id, and the state [L] of the language-model runtime. *)
Record State (L Agent ModelMessage : Type) : Type := {
  sessions : gmap string (DialogueSession Agent ModelMessage);
  llm : L
}.
Arguments sessions {L Agent ModelMessage} _.
Arguments llm {L Agent ModelMessage} _.
Arguments Build_State {L Agent ModelMessage} _ _.

(** What the services import: the agents of [agents.words_agent] and
    [agents.dialogue_agent], the prompt template of [agents.agents_config],
    and the library calls whose result depends on text the code does not
    fix ([json.loads], the pydantic constructor, [str.format], [repr],
    [print]). *)
Class AgentRuntime (L Agent ModelMessage Json : Type) : Type := {
  (* [repr] of a list of strings, as an f-string interpolates it *)
  repr_list : list string -> string;
  (* [(await words_agent.run(user_prompt=p)).output] *)
  words_agent_run : string -> M L string;
  json_loads : string -> result Json;
  (* [print(parsed_output)]: writes to standard output *)
  print_json : Json -> L -> L;
  (* the [WordSuggestion] constructor applied to the keys of [parsed_output] *)
  WordSuggestion_init : Json -> result WordSuggestion;
  (* [DIALOGUE_AGENT_PROMPT.format(known_words=k, new_words=n)] *)
  DIALOGUE_AGENT_PROMPT_format : string -> string -> result string;
  create_dialogue_agent : string -> M L Agent;
  (* [r = await agent.run(user_prompt=u, message_history=h)], giving
     [(r.output, r.all_messages())] *)
  agent_run : Agent -> string -> list ModelMessage -> M L (string * list ModelMessage)
}.

Section Services.

Context {L Agent ModelMessage Json : Type} `{AgentRuntime L Agent ModelMessage Json}.

Local Abbreviation Session := (DialogueSession Agent ModelMessage).
Local Abbreviation St := (State L Agent ModelMessage).

(** Run a step of the language-model runtime inside the service state. *)
Definition on_llm {A} (m : M L A) : M St A :=
  fun st =>
    let (r, l') := m (llm st) in
    (r, {| sessions := sessions st; llm := l' |}).

(** Modelled from the spec: [services.user_session_service.get_session] is
    not among the sources.  It is get-or-create: an empty session is
    registered on first access, the existing one is returned afterwards. *)
Definition get_session (user_id : string) : M St Session :=
  fun st =>
    match sessions st !! user_id with
    | Some session => (Return session, st)
    | None =>
        let session := {| dialogue_agent := None; message_history := [] |} in
        (Return session, {| sessions := <[user_id := session]> (sessions st); llm := llm st |})
    end.

(** [session.dialogue_agent = agent], on the session object the registry
    holds for [user_id]. *)
Definition set_dialogue_agent (user_id : string) (agent : Agent) : M St unit :=
  fun st =>
    (Return tt,
     {| sessions :=
          alter (fun session =>
                   {| dialogue_agent := Some agent;
                      message_history := message_history session |})
                user_id (sessions st);
        llm := llm st |}).

(** The agent the registry holds for a user, if any. *)
Definition registered_agent (st : St) (user_id : string) : option Agent :=
  match sessions st !! user_id with
  | Some session => dialogue_agent session
  | None => None
  end.

Definition suggest_new_words (known_words : list string) : M L WordSuggestion :=
  try_except
    (let* output := words_agent_run ("List of known words: " +:+ repr_list known_words) in
     let* parsed_output := lift (json_loads output) in
     let* _ := total (fun l => (tt, print_json parsed_output l)) in
     lift (WordSuggestion_init parsed_output))
    (fun e => raise (RuntimeError ("words_agent failed: " +:+ str e))).

Definition get_dialogue_response (user_id : string) (known_words new_words : list string)
    (student_response : string) (dialogue_history : list ModelMessage)
  : M St (string * list ModelMessage) :=
  try_except
    (let* session := get_session user_id in
     let* dialogue_agent :=
       match dialogue_agent session with
       | None =>
           let* updated_dialogue_agent_prompt :=
             lift (DIALOGUE_AGENT_PROMPT_format
                     (json_dumps known_words) (json_dumps new_words)) in
           let* dialogue_agent :=
             on_llm (create_dialogue_agent updated_dialogue_agent_prompt) in
           let* _ := set_dialogue_agent user_id dialogue_agent in
           ret dialogue_agent
       | Some dialogue_agent => ret dialogue_agent
       end in
     let* result := on_llm (agent_run dialogue_agent student_response dialogue_history) in
     ret result)
    (fun e => raise (RuntimeError ("dialogue_agent failed: " +:+ str e))).

End Services.

End LlmService.

(** ** A reference backend

    A small in-memory implementation of the two interfaces, on which the
    endpoints and services can be run. *)

Module Reference.

(** *** The word store and the services behind the API *)

(** Modelled from the spec: [db.words] is not among the sources.  The store
    is a table of words keyed by a generated id; listing is per user, update
    and delete are by word id alone, as their signatures in the endpoints
    show.  The two services answer with what the world holds for them. *)
Record World : Type := {
  rows : list WordResponse;
  next_id : N;
  clock : Z;
  dialogue_reply : result string;
  suggestion : result (option WordSuggestion)
}.

Definition with_rows (w : World) (rows' : list WordResponse) : World :=
  {| rows := rows'; next_id := next_id w; clock := clock w;
     dialogue_reply := dialogue_reply w; suggestion := suggestion w |}.

Definition ref_get_user_words (user_id : string) : M World (list WordResponse) :=
  fun w => (Return (filter (fun r => wr_user_id r = user_id) (rows w)), w).

Definition ref_create_word (user_id : string) (word : WordCreate) : M World WordResponse :=
  fun w =>
    let row :=
      {| wr_id := "w" +:+ pretty (next_id w);
         wr_user_id := user_id;
         wr_word := wc_word word;
         wr_translation := wc_translation word;
         wr_example := wc_example word;
         wr_created_at := clock w |} in
    (Return row,
     {| rows := rows w ++ [row]; next_id := N.succ (next_id w); clock := clock w;
        dialogue_reply := dialogue_reply w; suggestion := suggestion w |}).

Definition apply_updates (updates : WordUpdate) (row : WordResponse) : WordResponse :=
  {| wr_id := wr_id row;
     wr_user_id := wr_user_id row;
     wr_word := default (wr_word row) (wu_word updates);
     wr_translation := default (wr_translation row) (wu_translation updates);
     wr_example := default (wr_example row) (wu_example updates);
     wr_created_at := wr_created_at row |}.

Definition ref_update_word (word_id : string) (updates : WordUpdate)
  : M World (option WordResponse) :=
  fun w =>
    match List.find (fun r => String.eqb (wr_id r) word_id) (rows w) with
    | None => (Return None, w)
    | Some row =>
        let row' := apply_updates updates row in
        (Return (Some row'),
         with_rows w (map (fun r => if String.eqb (wr_id r) word_id then row' else r) (rows w)))
    end.

Definition ref_delete_word (word_id : string) : M World bool :=
  fun w =>
    if existsb (fun r => String.eqb (wr_id r) word_id) (rows w) then
      (Return true, with_rows w (filter (fun r => wr_id r <> word_id) (rows w)))
    else (Return false, w).

Definition ref_datetime_now (w : World) : Z * World :=
  (clock w,
   {| rows := rows w; next_id := next_id w; clock := clock w + 1;
      dialogue_reply := dialogue_reply w; suggestion := suggestion w |}).

#[export] Instance ref_backend : WordsApi.Backend World := {|
  WordsApi.get_user_words := ref_get_user_words;
  WordsApi.create_word := ref_create_word;
  WordsApi.update_word := ref_update_word;
  WordsApi.delete_word := ref_delete_word;
  WordsApi.run_dialogue_turn := fun _ _ w => (dialogue_reply w, w);
  WordsApi.suggest_new_words_for_user := fun _ w => (suggestion w, w);
  WordsApi.datetime_now := ref_datetime_now
|}.

(** *** A scripted language-model runtime *)

(** The runtime answers each agent call with the next outcome of a script and
    records the prompts it was sent.  An agent is its system prompt, a
    message is a line of text, and parsed JSON is a list of words. *)
Record Llm : Type := {
  script : list (result string);
  sent : list string;
  printed : list (list string)
}.

Definition next_outcome (prompt : string) : M Llm string :=
  fun l =>
    match script l with
    | [] => (Raise (OtherError "UnexpectedModelBehavior" "no response"),
             {| script := []; sent := sent l ++ [prompt]; printed := printed l |})
    | r :: rest => (r, {| script := rest; sent := sent l ++ [prompt]; printed := printed l |})
    end.

Definition words_by_space (text : string) : list string :=
  let step c acc :=
    match acc with
    | [] => [String c ""]
    | w :: ws => if Ascii.eqb c " " then "" :: w :: ws else String c w :: ws
    end in
  (fix go (s : string) : list string :=
     match s with
     | EmptyString => [""]
     | String c rest => step c (go rest)
     end) text.

#[export] Instance ref_runtime : LlmService.AgentRuntime Llm string string (list string) := {|
  LlmService.repr_list := fun ws =>
    "[" +:+ LlmService.json_join (map (fun w => "'" +:+ w +:+ "'") ws) +:+ "]";
  LlmService.words_agent_run := next_outcome;
  LlmService.json_loads := fun text =>
    if String.eqb text "" then
      Raise (OtherError "JSONDecodeError" "Expecting value: line 1 column 1 (char 0)")
    else Return (words_by_space text);
  LlmService.print_json := fun j l =>
    {| script := script l; sent := sent l; printed := printed l ++ [j] |};
  LlmService.WordSuggestion_init := fun j =>
    if existsb (String.eqb "") j then
      Raise (OtherError "ValidationError" "1 validation error for WordSuggestion")
    else Return {| new_words := j; usages := ∅ |};
  LlmService.DIALOGUE_AGENT_PROMPT_format := fun known new =>
    Return ("Known words: " +:+ known +:+ "; new words: " +:+ new);
  LlmService.create_dialogue_agent := fun prompt => ret prompt;
  LlmService.agent_run := fun agent user_prompt history =>
    let* output := next_outcome user_prompt in
    ret (output, (history ++ [user_prompt; output])%list)
|}.

End Reference.

(** ** Concrete worlds for the worked cases *)

Module Scenario.

Import WordsApi Reference.

Definition alice : User := {| user_id := "u1" |}.
Definition bob : User := {| user_id := "u2" |}.

Definition chien_suggestion : WordSuggestion :=
  {| new_words := ["chien"; "maison"];
     usages := {[ "chien" := {| fr := "Le chien dort."; translation := "dog" |} ]} |}.

(** The entry the new-words endpoint builds for "chien". *)
Definition new_chien_row : WordResponse :=
  {| wr_id := "new_chien"; wr_user_id := "u1"; wr_word := "chien";
     wr_translation := "dog"; wr_example := "Le chien dort."; wr_created_at := 100 |}.

(** A suggestion none of whose words has a usage entry. *)
Definition bare_suggestion : WordSuggestion :=
  {| new_words := ["chien"; "maison"]; usages := ∅ |}.

Definition empty_world : World :=
  {| rows := []; next_id := 1; clock := 100;
     dialogue_reply := Return "Bonjour";
     suggestion := Return (Some chien_suggestion) |}.

Definition chat : WordCreate :=
  {| wc_user_id := "u1"; wc_word := "chat"; wc_translation := "cat";
     wc_example := "Le chat dort." |}.

Definition chat_row : WordResponse :=
  {| wr_id := "w1"; wr_user_id := "u1"; wr_word := "chat"; wr_translation := "cat";
     wr_example := "Le chat dort."; wr_created_at := 100 |}.

Definition chien : WordCreate :=
  {| wc_user_id := "u2"; wc_word := "chien"; wc_translation := "dog";
     wc_example := "Le chien dort." |}.

Definition chien_row : WordResponse :=
  {| wr_id := "w2"; wr_user_id := "u2"; wr_word := "chien"; wr_translation := "dog";
     wr_example := "Le chien dort."; wr_created_at := 100 |}.

(** The store after alice and bob have each created a word: it holds
    [chat_row] and [chien_row]. *)
Definition world1 : World :=
  snd (create_word_endpoint chien bob (snd (create_word_endpoint chat alice empty_world))).

(** The same store when the suggestion service is down. *)
Definition world1_no_suggestions : World :=
  {| rows := rows world1; next_id := next_id world1; clock := clock world1;
     dialogue_reply := Return "Bonjour";
     suggestion := Raise (RuntimeError "words_agent failed: timeout") |}.

Definition world1_bare : World :=
  {| rows := rows world1; next_id := next_id world1; clock := clock world1;
     dialogue_reply := Return "Bonjour";
     suggestion := Return (Some bare_suggestion) |}.

(** The store after alice has deleted her word again. *)
Definition world2 : World := snd (delete_word_endpoint "w1" alice world1).

Definition rename : WordUpdate :=
  {| wu_word := None; wu_translation := Some "feline"; wu_example := None |}.

Definition salut : DialogueMessage := {| dm_user_id := "u1"; dm_message := "salut" |}.

Definition llm0 : Llm :=
  {| script := [Return "chien maison"; Return "";
                Raise (OtherError "ModelHTTPError" "status_code: 503")];
     sent := []; printed := [] |}.

Definition llm_down : Llm :=
  {| script := [Raise (OtherError "ModelHTTPError" "status_code: 503")];
     sent := []; printed := [] |}.

Definition llm_empty_output : Llm :=
  {| script := [Return ""]; sent := []; printed := [] |}.

Definition llm_bad_shape : Llm :=
  {| script := [Return "chien "]; sent := []; printed := [] |}.

Definition state0 : LlmService.State Llm string string :=
  {| LlmService.sessions := ∅; LlmService.llm := llm0 |}.

(** The service state after a first dialogue turn of [u1]. *)
Definition state1 : LlmService.State Llm string string :=
  snd (LlmService.get_dialogue_response "u1" ["chat"] ["chien"] "salut" [] state0).

End Scenario.

(** ** Backends that fail *)

Module Outage.

(** A backend whose store and services are down: every call raises the
    exception the world holds, and is counted. *)
Record World : Type := {
  failure : exn;
  calls : nat
}.

Definition fail {A} : M World A :=
  fun w => (Raise (failure w), {| failure := failure w; calls := S (calls w) |}).

Definition backend : WordsApi.Backend World := {|
  WordsApi.get_user_words := fun _ => fail;
  WordsApi.create_word := fun _ _ => fail;
  WordsApi.update_word := fun _ _ => fail;
  WordsApi.delete_word := fun _ => fail;
  WordsApi.run_dialogue_turn := fun _ _ => fail;
  WordsApi.suggest_new_words_for_user := fun _ => fail;
  WordsApi.datetime_now := fun w => (0, w)
|}.

(** The store answers with an HTTP error of its own. *)
Definition teapot : World :=
  {| failure := HTTPException 418 "I'm a teapot"; calls := 0 |}.

(** The store is unreachable. *)
Definition unreachable : World :=
  {| failure := OtherError "ConnectionError" "connection refused"; calls := 0 |}.

(** The scripted runtime with a prompt template that names a field the call
    does not pass, so that [str.format] raises. *)
Definition bad_template_runtime
  : LlmService.AgentRuntime Reference.Llm string string (list string) := {|
  LlmService.repr_list := LlmService.repr_list (AgentRuntime := Reference.ref_runtime);
  LlmService.words_agent_run :=
    LlmService.words_agent_run (AgentRuntime := Reference.ref_runtime);
  LlmService.json_loads := LlmService.json_loads (AgentRuntime := Reference.ref_runtime);
  LlmService.print_json := LlmService.print_json (AgentRuntime := Reference.ref_runtime);
  LlmService.WordSuggestion_init :=
    LlmService.WordSuggestion_init (AgentRuntime := Reference.ref_runtime);
  LlmService.DIALOGUE_AGENT_PROMPT_format := fun _ _ =>
    Raise (OtherError "KeyError" "'level'");
  LlmService.create_dialogue_agent :=
    LlmService.create_dialogue_agent (AgentRuntime := Reference.ref_runtime);
  LlmService.agent_run := LlmService.agent_run (AgentRuntime := Reference.ref_runtime)
|}.

(** The scripted runtime when no agent can be created. *)
Definition no_model_runtime
  : LlmService.AgentRuntime Reference.Llm string string (list string) := {|
  LlmService.repr_list := LlmService.repr_list (AgentRuntime := Reference.ref_runtime);
  LlmService.words_agent_run :=
    LlmService.words_agent_run (AgentRuntime := Reference.ref_runtime);
  LlmService.json_loads := LlmService.json_loads (AgentRuntime := Reference.ref_runtime);
  LlmService.print_json := LlmService.print_json (AgentRuntime := Reference.ref_runtime);
  LlmService.WordSuggestion_init :=
    LlmService.WordSuggestion_init (AgentRuntime := Reference.ref_runtime);
  LlmService.DIALOGUE_AGENT_PROMPT_format :=
    LlmService.DIALOGUE_AGENT_PROMPT_format (AgentRuntime := Reference.ref_runtime);
  LlmService.create_dialogue_agent := fun _ =>
    raise (OtherError "UserError" "Unknown model: none");
  LlmService.agent_run := LlmService.agent_run (AgentRuntime := Reference.ref_runtime)
|}.

End Outage.

(** ** Sequences of dialogue calls *)

Module Serving.

Import LlmService.

(** The arguments of one call of [get_dialogue_response]. *)
Record DialogueCall (ModelMessage : Type) : Type := {
  call_user_id : string;
  call_known_words : list string;
  call_new_words : list string;
  call_student_response : string;
  call_dialogue_history : list ModelMessage
}.
Arguments call_user_id {ModelMessage} _.
Arguments call_known_words {ModelMessage} _.
Arguments call_new_words {ModelMessage} _.
Arguments call_student_response {ModelMessage} _.
Arguments call_dialogue_history {ModelMessage} _.
Arguments Build_DialogueCall {ModelMessage} _ _ _ _ _.

Section Serve.

Context {L Agent ModelMessage Json : Type} `{AgentRuntime L Agent ModelMessage Json}.

(** The state of the process after it has served the calls one after the
    other, whether they returned or raised. *)
Fixpoint serve (calls : list (DialogueCall ModelMessage)) (st : State L Agent ModelMessage)
  : State L Agent ModelMessage :=
  match calls with
  | [] => st
  | c :: rest =>
      serve rest
        (snd (get_dialogue_response (call_user_id c) (call_known_words c)
                (call_new_words c) (call_student_response c)
                (call_dialogue_history c) st))
  end.

End Serve.

End Serving.

(** ** Further worked cases *)

Module MoreScenarios.

Import LlmService Serving Reference Scenario.

(** A registry in which [u1] has a session with two turns of history and no
    agent yet. *)
Definition state_with_history : State Llm string string :=
  {| sessions :=
       {[ "u1" := {| dialogue_agent := None;
                     message_history := ["Bonjour !"; "salut"] |} ]};
     llm := llm0 |}.

(** The prompt of the agent built on the first turn of [u1]. *)
Definition first_prompt : string :=
  "Known words: " +:+ json_dumps ["chat"] +:+ "; new words: " +:+ json_dumps ["chien"].

(** Later calls: another user, then [u1] twice with other word lists; the
    script runs out on the way, so the last call raises. *)
Definition later_calls : list (DialogueCall string) :=
  [ {| call_user_id := "u2"; call_known_words := ["chien"]; call_new_words := [];
       call_student_response := "bonsoir"; call_dialogue_history := [] |};
    {| call_user_id := "u1"; call_known_words := ["maison"];
       call_new_words := ["jardin"]; call_student_response := "oui";
       call_dialogue_history := ["salut"] |};
    {| call_user_id := "u1"; call_known_words := []; call_new_words := [];
       call_student_response := "non"; call_dialogue_history := [] |} ].

End MoreScenarios.

(** ** Properties of computations *)

Lemma negb_eqb_ne (a b : string) : a <> b -> negb (String.eqb a b) = true.
Proof. intros Hne. apply negb_true_iff. now apply String.eqb_neq. Qed.

Lemma negb_eqb_eq (a b : string) : a = b -> negb (String.eqb a b) = false.
Proof. intros ->. apply negb_false_iff. apply String.eqb_refl. Qed.

Lemma find_id_None (words : list WordResponse) (word_id : string) :
  (forall r, In r words -> wr_id r <> word_id) ->
  List.find (fun w => String.eqb (wr_id w) word_id) words = None.
Proof.
  induction words as [|r words IH]; intros Hall; simpl; [reflexivity|].
  destruct (String.eqb_spec (wr_id r) word_id) as [Heq|Hne].
  - exfalso. apply (Hall r); [now left | exact Heq].
  - apply IH. intros r' Hin. apply Hall. now right.
Qed.

(** ** Properties of the word endpoints *)

Module WordsApiSpec.

Import WordsApi.

Section Generic.

Context {W : Type} `{Backend W}.

(** The read endpoint compares identities before it touches the store. *)
Lemma get_user_words_endpoint_mismatch (user_id' : string) (current_user : User) (w : W) :
  user_id current_user <> user_id' ->
  get_user_words_endpoint user_id' current_user w
  = (Raise (HTTPException 403 "Can only access your own words"), w).
Proof.
  intros Hne. unfold get_user_words_endpoint.
  now rewrite (negb_eqb_ne _ _ Hne).
Qed.

(** So does the create endpoint. *)
Lemma create_word_endpoint_mismatch (word : WordCreate) (current_user : User) (w : W) :
  user_id current_user <> wc_user_id word ->
  create_word_endpoint word current_user w
  = (Raise (HTTPException 403 "Can only create words for yourself"), w).
Proof.
  intros Hne. unfold create_word_endpoint.
  now rewrite (negb_eqb_ne _ _ Hne).
Qed.

(** The update endpoint answers 403 once the store has returned a word that
    belongs to someone else; the store it leaves is the one the update call
    left. *)
Lemma update_word_endpoint_foreign (word_id : string) (updates : WordUpdate)
    (current_user : User) (w w' : W) (row : WordResponse) :
  update_word word_id updates w = (Return (Some row), w') ->
  wr_user_id row <> user_id current_user ->
  update_word_endpoint word_id updates current_user w
  = (Raise (HTTPException 403 "Can only update your own words"), w').
Proof.
  intros Hupd Hne.
  unfold update_word_endpoint, try_except_reraise_http, try_except, bind.
  rewrite Hupd, (negb_eqb_ne _ _ Hne). reflexivity.
Qed.

(** The delete endpoint looks the id up among the caller's own words and
    answers 404 when it is not there, without calling [delete_word]. *)
Lemma delete_word_endpoint_not_listed (word_id : string) (current_user : User)
    (w w' : W) (words : list WordResponse) :
  get_user_words (user_id current_user) w = (Return words, w') ->
  (forall r, In r words -> wr_id r <> word_id) ->
  delete_word_endpoint word_id current_user w
  = (Raise (HTTPException 404 "Word not found"), w').
Proof.
  intros Hget Hall.
  unfold delete_word_endpoint, try_except_reraise_http, try_except, bind.
  rewrite Hget, (find_id_None _ _ Hall). reflexivity.
Qed.

(** The store call of the update endpoint is unconditional: whatever the
    endpoint answers, the store it leaves is the one [update_word] left. *)
Lemma update_word_endpoint_store (word_id : string) (updates : WordUpdate)
    (current_user : User) (w : W) :
  snd (update_word_endpoint word_id updates current_user w)
  = snd (update_word word_id updates w).
Proof.
  unfold update_word_endpoint, try_except_reraise_http, try_except, bind.
  destruct (update_word word_id updates w) as [[[row|]|e] w']; simpl.
  - destruct (negb _); reflexivity.
  - reflexivity.
  - destruct (is_HTTPException e); reflexivity.
Qed.

End Generic.

Section Ownership.

Context {W : Type} `{Backend W}.

(** C1 (amended).  For distinct users A and B: A's request to read B's list,
    or to create a word whose [user_id] is B, is refused with 403 and the
    store is not touched; A's update of a word the store returns as owned by B
    is answered 403; A's delete of a word id that belongs to B is answered
    404 "Word not found" (not 403) as soon as the store lists A's own words,
    and the store's delete is not called. *)
Theorem foreign_words_are_refused (A : User) (B : string) :
  user_id A <> B ->
  (forall w,
     get_user_words_endpoint B A w
     = (Raise (HTTPException 403 "Can only access your own words"), w))
  /\ (forall word w,
       wc_user_id word = B ->
       create_word_endpoint word A w
       = (Raise (HTTPException 403 "Can only create words for yourself"), w))
  /\ (forall word_id updates w row w',
       update_word word_id updates w = (Return (Some row), w') ->
       wr_user_id row = B ->
       update_word_endpoint word_id updates A w
       = (Raise (HTTPException 403 "Can only update your own words"), w'))
  /\ (forall word_id w words w',
       get_user_words (user_id A) w = (Return words, w') ->
       (forall r, In r words -> wr_user_id r = user_id A) ->
       (forall r, In r words -> wr_id r = word_id -> wr_user_id r = B) ->
       delete_word_endpoint word_id A w
       = (Raise (HTTPException 404 "Word not found"), w')).
Proof.
  intros Hne. repeat split.
  - intros w. now apply get_user_words_endpoint_mismatch.
  - intros word w Hb. apply create_word_endpoint_mismatch. now rewrite Hb.
  - intros word_id updates w row w' Hupd Hb.
    eapply update_word_endpoint_foreign; [exact Hupd|]. rewrite Hb. congruence.
  - intros word_id w words w' Hget Hmine Htheirs.
    eapply delete_word_endpoint_not_listed; [exact Hget|].
    intros r Hin Hid. apply Hne.
    rewrite <- (Hmine r Hin). now apply Htheirs.
Qed.

(** C5.  When the store lists the caller's words and none of them has the
    requested id (the id never existed, or was deleted before), DELETE
    answers 404 "Word not found"; the status is 404 and not 500. *)
Theorem delete_missing_word_is_404 (word_id : string) (current_user : User)
    (w w' : W) (words : list WordResponse) :
  get_user_words (user_id current_user) w = (Return words, w') ->
  (forall r, In r words -> wr_id r <> word_id) ->
  delete_word_endpoint word_id current_user w
  = (Raise (HTTPException 404 "Word not found"), w')
  /\ status_of (fst (delete_word_endpoint word_id current_user w)) = 404
  /\ status_of (fst (delete_word_endpoint word_id current_user w)) <> 500.
Proof.
  intros Hget Hall.
  rewrite (delete_word_endpoint_not_listed _ _ _ _ _ Hget Hall).
  simpl. repeat split. lia.
Qed.

(** C6.  When the word exists, so that the store's update returns it, and its
    [user_id] differs from the caller's, PUT answers 403: not 404, not 500. *)
Theorem update_foreign_word_is_403 (word_id : string) (updates : WordUpdate)
    (current_user : User) (w w' : W) (row : WordResponse) :
  update_word word_id updates w = (Return (Some row), w') ->
  wr_user_id row <> user_id current_user ->
  fst (update_word_endpoint word_id updates current_user w)
  = Raise (HTTPException 403 "Can only update your own words")
  /\ status_of (fst (update_word_endpoint word_id updates current_user w)) = 403.
Proof.
  intros Hupd Hne.
  rewrite (update_word_endpoint_foreign _ _ _ _ _ _ Hupd Hne).
  simpl. split; reflexivity.
Qed.

End Ownership.

Section Suggestions.

Context {W : Type} `{Backend W}.

(** The un-awaited call evaluates to a coroutine object, reading
    [.new_words] off it raises, and the handler substitutes the empty list;
    the body of the suggestion service never runs. *)
Lemma chat_suggested_words_fallback (user_id' : string) (w : W) :
  chat_suggested_words user_id' w = (Return [], w).
Proof. reflexivity. Qed.

Lemma chat_with_ai_matching (message : DialogueMessage) (current_user : User) (w : W) :
  user_id current_user = dm_user_id message ->
  chat_with_ai message current_user w
  = match run_dialogue_turn (dm_user_id message) (dm_message message) w with
    | (Return ai_response, w') =>
        (Return {| response := ai_response; suggested_words := [] |}, w')
    | (Raise e, w') =>
        (Raise (HTTPException 500 ("Failed to process message: " +:+ str e)), w')
    end.
Proof.
  intros Heq. unfold chat_with_ai. rewrite (negb_eqb_eq _ _ Heq).
  unfold try_except, bind.
  destruct (run_dialogue_turn _ _ w) as [[ai_response|e] w']; reflexivity.
Qed.

Lemma chat_with_ai_mismatch (message : DialogueMessage) (current_user : User) (w : W) :
  user_id current_user <> dm_user_id message ->
  chat_with_ai message current_user w
  = (Raise (HTTPException 403 "Can only send messages for yourself"), w).
Proof.
  intros Hne. unfold chat_with_ai. now rewrite (negb_eqb_ne _ _ Hne).
Qed.

(** C3.  When the caller is the user named in the body and the dialogue
    service returns a reply, POST /dialogue returns a [DialogueResponse] with
    that reply and a list of suggested words, with status 200; and when the
    suggestion service fails, whatever the exception, the response is still
    returned, with the empty list. *)
Theorem chat_with_ai_always_answers (message : DialogueMessage) (current_user : User)
    (w w' : W) (ai_response : string) :
  user_id current_user = dm_user_id message ->
  run_dialogue_turn (dm_user_id message) (dm_message message) w = (Return ai_response, w') ->
  (exists suggested,
     chat_with_ai message current_user w
     = (Return {| response := ai_response; suggested_words := suggested |}, w'))
  /\ status_of (fst (chat_with_ai message current_user w)) = 200
  /\ (forall e w'',
       suggest_new_words_for_user (dm_user_id message) w' = (Raise e, w'') ->
       chat_with_ai message current_user w
       = (Return {| response := ai_response; suggested_words := [] |}, w')).
Proof.
  intros Heq Hrun.
  rewrite (chat_with_ai_matching _ _ _ Heq), Hrun. simpl.
  split; [now exists []|]. split; reflexivity.
Qed.

(** C4.  Every successful POST /dialogue response carries the empty list of
    suggested words, and the store it leaves is the one the dialogue turn
    left: the suggestion service has not run. *)
Theorem chat_with_ai_never_suggests (message : DialogueMessage) (current_user : User)
    (w w' : W) (r : DialogueResponse) :
  chat_with_ai message current_user w = (Return r, w') ->
  suggested_words r = []
  /\ run_dialogue_turn (dm_user_id message) (dm_message message) w
     = (Return (response r), w').
Proof.
  intros Hchat.
  destruct (String.eqb_spec (user_id current_user) (dm_user_id message)) as [Heq|Hne].
  - rewrite (chat_with_ai_matching _ _ _ Heq) in Hchat.
    destruct (run_dialogue_turn _ _ w) as [[ai_response|e] w1].
    + injection Hchat as <- <-. split; reflexivity.
    + discriminate.
  - rewrite (chat_with_ai_mismatch _ _ _ Hne) in Hchat. discriminate.
Qed.

(** The loop never raises; it appends one entry per word that has a usage,
    in order, and each entry has the suggested shape. *)
Lemma new_word_objs_loop_spec (user_id' : string) (ws : WordSuggestion)
    (words : list string) :
  forall (acc : list WordResponse) (w : W),
  exists objs w',
    new_word_objs_loop user_id' ws words acc w = (Return (acc ++ objs)%list, w')
    /\ map wr_word objs = filter (fun word => is_Some (usages ws !! word)) words
    /\ Forall (suggested_entry user_id' ws) objs.
Proof.
  induction words as [|word rest IH]; intros acc w; simpl.
  - exists [], w. rewrite app_nil_r. repeat split. constructor.
  - destruct (usages ws !! word) as [usage|] eqn:Hu.
    + unfold bind, total. destruct (datetime_now w) as [created_at w1].
      destruct (IH (acc ++ [{| wr_id := "new_" +:+ word; wr_user_id := user_id';
                               wr_word := word; wr_translation := translation usage;
                               wr_example := fr usage; wr_created_at := created_at |}])%list
                   w1) as (objs & w' & Hloop & Hwords & Hshape).
      eexists (_ :: objs), w'. split; [|split].
      * rewrite Hloop. now rewrite <- app_assoc.
      * rewrite filter_cons_True by (rewrite Hu; eauto). simpl. now rewrite Hwords.
      * constructor; [|exact Hshape].
        repeat split. exists usage. simpl. auto.
    + destruct (IH acc w) as (objs & w' & Hloop & Hwords & Hshape).
      exists objs, w'. split; [exact Hloop|]. split; [|exact Hshape].
      rewrite filter_cons_False; [exact Hwords|].
      rewrite Hu. intros [? ?]. discriminate.
Qed.

(** With no usage entry for any word the loop adds nothing and reads no
    clock. *)
Lemma new_word_objs_loop_no_usage (user_id' : string) (ws : WordSuggestion)
    (words : list string) (acc : list WordResponse) (w : W) :
  (forall word, In word words -> usages ws !! word = None) ->
  new_word_objs_loop user_id' ws words acc w = (Return acc, w).
Proof.
  induction words as [|word rest IH]; intros Hnone; simpl; [reflexivity|].
  rewrite (Hnone word) by now left.
  apply IH. intros word' Hin. apply Hnone. now right.
Qed.

Lemma get_new_words_endpoint_matching (user_id' : string) (current_user : User) (w : W) :
  user_id current_user = user_id' ->
  get_new_words_endpoint user_id' current_user w
  = match suggest_new_words_for_user user_id' w with
    | (Return (Some ws), w') => new_word_objs_loop user_id' ws (new_words ws) [] w'
    | (Return None, w') => (Return [], w')
    | (Raise e, w') =>
        (Raise (HTTPException 500 ("Failed to fetch new words: " +:+ str e)), w')
    end.
Proof.
  intros Heq. unfold get_new_words_endpoint. rewrite (negb_eqb_eq _ _ Heq).
  unfold try_except, await, call_async, bind.
  destruct (suggest_new_words_for_user user_id' w) as [[[ws|]|e] w']; simpl; try reflexivity.
  destruct (new_word_objs_loop_spec user_id' ws (new_words ws) [] w')
    as (objs & w'' & Hloop & _).
  now rewrite Hloop.
Qed.

Lemma get_new_words_endpoint_mismatch (user_id' : string) (current_user : User) (w : W) :
  user_id current_user <> user_id' ->
  get_new_words_endpoint user_id' current_user w
  = (Raise (HTTPException 403 "Can only access your own new words"), w).
Proof.
  intros Hne. unfold get_new_words_endpoint. now rewrite (negb_eqb_ne _ _ Hne).
Qed.

(** C7.  When the caller is the user of the path and the suggestion service
    returns a suggestion: if no suggested word has a usage entry the endpoint
    returns the empty list with status 200; in general it returns a list, and
    words without a usage are skipped, so the list is no longer than the
    suggestion's [new_words]. *)
Theorem new_words_without_usage_are_skipped (user_id' : string) (current_user : User)
    (w w' : W) (ws : WordSuggestion) :
  user_id current_user = user_id' ->
  suggest_new_words_for_user user_id' w = (Return (Some ws), w') ->
  ((forall word, In word (new_words ws) -> usages ws !! word = None) ->
   get_new_words_endpoint user_id' current_user w = (Return [], w')
   /\ status_of (fst (get_new_words_endpoint user_id' current_user w)) = 200)
  /\ (exists objs w'',
       get_new_words_endpoint user_id' current_user w = (Return objs, w'')
       /\ map wr_word objs = words_with_usage ws
       /\ length objs <= length (new_words ws))%nat.
Proof.
  intros Heq Hsug.
  rewrite (get_new_words_endpoint_matching _ _ _ Heq), Hsug. split.
  - intros Hnone. rewrite (new_word_objs_loop_no_usage _ _ _ _ _ Hnone).
    split; reflexivity.
  - destruct (new_word_objs_loop_spec user_id' ws (new_words ws) [] w')
      as (objs & w'' & Hloop & Hwords & _).
    exists objs, w''. split; [exact Hloop|]. split; [exact Hwords|].
    rewrite <- (length_map wr_word), Hwords. apply length_filter.
Qed.

(** C8.  In every successful GET /new-words response the caller is the user
    of the path and the suggestion service has returned; the words of the
    entries are the suggested words that have a usage entry, in the order of
    [new_words], and every entry has id "new_" followed by its word, the
    path's user id, and the translation and French example of its usage. *)
Theorem new_words_entries_are_word_shaped (user_id' : string) (current_user : User)
    (w w'' : W) (objs : list WordResponse) :
  get_new_words_endpoint user_id' current_user w = (Return objs, w'') ->
  user_id current_user = user_id'
  /\ exists suggestion w',
       suggest_new_words_for_user user_id' w = (Return suggestion, w')
       /\ match suggestion with
          | Some ws =>
              map wr_word objs = words_with_usage ws
              /\ Forall (suggested_entry user_id' ws) objs
          | None => objs = []
          end.
Proof.
  intros Hget.
  destruct (String.eqb_spec (user_id current_user) user_id') as [Heq|Hne].
  - split; [exact Heq|].
    rewrite (get_new_words_endpoint_matching _ _ _ Heq) in Hget.
    destruct (suggest_new_words_for_user user_id' w) as [[[ws|]|e] w'].
    + exists (Some ws), w'. split; [reflexivity|].
      destruct (new_word_objs_loop_spec user_id' ws (new_words ws) [] w')
        as (objs' & w1 & Hloop & Hwords & Hshape).
      rewrite Hloop in Hget. injection Hget as <- <-. now split.
    + exists None, w'. split; [reflexivity|]. now injection Hget as <- <-.
    + discriminate.
  - rewrite (get_new_words_endpoint_mismatch _ _ _ Hne) in Hget. discriminate.
Qed.

End Suggestions.

Import Reference Scenario.

(** C1, as stated, fails on the delete endpoint: bob asks to delete alice's
    word and is answered 404, not 403. *)
Lemma delete_of_foreign_word_is_not_403 :
  user_id bob <> wr_user_id chat_row
  /\ In chat_row (rows world1)
  /\ fst (delete_word_endpoint "w1" bob world1)
     = Raise (HTTPException 404 "Word not found")
  /\ status_of (fst (delete_word_endpoint "w1" bob world1)) <> 403.
Proof.
  vm_compute. repeat split; try discriminate. now left.
Qed.

Lemma foreign_words_are_refused_witness :
  get_user_words_endpoint "u1" bob world1
  = (Raise (HTTPException 403 "Can only access your own words"), world1)
  /\ create_word_endpoint chat bob world1
     = (Raise (HTTPException 403 "Can only create words for yourself"), world1)
  /\ fst (update_word_endpoint "w1" rename bob world1)
     = Raise (HTTPException 403 "Can only update your own words")
  /\ delete_word_endpoint "w1" bob world1
     = (Raise (HTTPException 404 "Word not found"), world1).
Proof.
  assert (Hne : user_id bob <> "u1") by discriminate.
  destruct (foreign_words_are_refused (W := World) bob "u1" Hne)
    as (Hread & Hcreate & Hupdate & Hdelete).
  split; [apply Hread|].
  split; [apply Hcreate; reflexivity|].
  split.
  - erewrite Hupdate; [reflexivity| |]; [vm_compute; reflexivity | reflexivity].
  - eapply Hdelete with (words := [chien_row]).
    + vm_compute. reflexivity.
    + intros r [<-|[]]. reflexivity.
    + intros r [<-|[]]. discriminate.
Defined.

(** C2 fails on the update endpoint: bob's PUT on alice's word is answered
    403, and the store row has been rewritten all the same. *)
Theorem update_of_foreign_word_mutates_store :
  In chat_row (rows world1)
  /\ wr_user_id chat_row <> user_id bob
  /\ fst (update_word_endpoint "w1" rename bob world1)
     = Raise (HTTPException 403 "Can only update your own words")
  /\ rows (snd (update_word_endpoint "w1" rename bob world1))
     = [Reference.apply_updates rename chat_row; chien_row]
  /\ rows (snd (update_word_endpoint "w1" rename bob world1)) <> rows world1.
Proof.
  vm_compute. repeat split; try discriminate. now left.
Qed.

Lemma delete_missing_word_is_404_witness :
  (forall r, In r (rows world2) -> wr_id r <> "w1")
  /\ status_of (fst (delete_word_endpoint "w1" alice world2)) = 404
  /\ status_of (fst (delete_word_endpoint "w9" alice world1)) = 404.
Proof.
  split; [intros r [<-|[]]; discriminate|].
  split.
  - apply (delete_missing_word_is_404 (W := World) "w1" alice world2 world2 []).
    + vm_compute. reflexivity.
    + intros r [].
  - apply (delete_missing_word_is_404 (W := World) "w9" alice world1 world1 [chat_row]).
    + vm_compute. reflexivity.
    + intros r [<-|[]]. discriminate.
Defined.

Lemma update_foreign_word_is_403_witness :
  status_of (fst (update_word_endpoint "w1" rename bob world1)) = 403.
Proof.
  apply (update_foreign_word_is_403 (W := World) "w1" rename bob world1
           (snd (Reference.ref_update_word "w1" rename world1))
           (Reference.apply_updates rename chat_row)).
  - vm_compute. reflexivity.
  - vm_compute. discriminate.
Defined.

Lemma chat_with_ai_always_answers_witness :
  chat_with_ai salut alice world1_no_suggestions
  = (Return {| response := "Bonjour"; suggested_words := [] |}, world1_no_suggestions).
Proof.
  destruct (chat_with_ai_always_answers (W := World) salut alice
              world1_no_suggestions world1_no_suggestions "Bonjour")
    as (_ & _ & Hfail).
  - reflexivity.
  - reflexivity.
  - apply (Hfail (RuntimeError "words_agent failed: timeout") world1_no_suggestions).
    reflexivity.
Defined.

Lemma chat_with_ai_never_suggests_witness :
  suggestion world1 = Return (Some chien_suggestion)
  /\ suggested_words {| response := "Bonjour"; suggested_words := [] |} = []
  /\ run_dialogue_turn "u1" "salut" world1 = (Return "Bonjour", world1).
Proof.
  split; [reflexivity|].
  apply (chat_with_ai_never_suggests (W := World) salut alice world1 world1
           {| response := "Bonjour"; suggested_words := [] |}).
  vm_compute. reflexivity.
Defined.

Lemma new_words_without_usage_are_skipped_witness :
  get_new_words_endpoint "u1" alice world1_bare = (Return [], world1_bare).
Proof.
  destruct (new_words_without_usage_are_skipped (W := World) "u1" alice
              world1_bare world1_bare bare_suggestion) as (Hnone & _).
  - reflexivity.
  - reflexivity.
  - apply Hnone. intros word _. reflexivity.
Defined.

Lemma new_words_entries_are_word_shaped_witness :
  fst (get_new_words_endpoint "u1" alice world1) = Return [new_chien_row]
  /\ user_id alice = "u1".
Proof.
  split; [vm_compute; reflexivity|].
  apply (new_words_entries_are_word_shaped (W := World) "u1" alice world1
           (snd (get_new_words_endpoint "u1" alice world1)) [new_chien_row]).
  vm_compute. reflexivity.
Defined.

End WordsApiSpec.

(** ** Properties of the LLM services *)

Module LlmServiceSpec.

Import LlmService.

Section Generic.

Context {L Agent ModelMessage Json : Type} `{AgentRuntime L Agent ModelMessage Json}.

(** C9.  For every list of known words, the agent is called once with the
    prompt that embeds the list.  If that call raises, or its output is
    rejected by [json.loads], or the parsed value is rejected by the
    [WordSuggestion] constructor, [suggest_new_words] raises a [RuntimeError]
    whose message is "words_agent failed: " followed by the text of the
    cause; otherwise it returns the [WordSuggestion] that was built.  In all
    cases the runtime is left as that single call left it. *)
Theorem suggest_new_words_wraps_failures (known_words : list string) (l : L) :
  let prompt := "List of known words: " +:+ repr_list known_words in
  (forall e l',
     words_agent_run prompt l = (Raise e, l') ->
     suggest_new_words known_words l
     = (Raise (RuntimeError ("words_agent failed: " +:+ str e)), l'))
  /\ (forall output l' e,
       words_agent_run prompt l = (Return output, l') ->
       json_loads output = Raise e ->
       suggest_new_words known_words l
       = (Raise (RuntimeError ("words_agent failed: " +:+ str e)), l'))
  /\ (forall output l' parsed_output e,
       words_agent_run prompt l = (Return output, l') ->
       json_loads output = Return parsed_output ->
       WordSuggestion_init parsed_output = Raise e ->
       suggest_new_words known_words l
       = (Raise (RuntimeError ("words_agent failed: " +:+ str e)),
          print_json parsed_output l'))
  /\ (forall output l' parsed_output ws,
       words_agent_run prompt l = (Return output, l') ->
       json_loads output = Return parsed_output ->
       WordSuggestion_init parsed_output = Return ws ->
       suggest_new_words known_words l = (Return ws, print_json parsed_output l')).
Proof.
  intros prompt. unfold suggest_new_words, try_except, bind, lift, total, raise.
  fold prompt. repeat split.
  - intros e l' Hrun. now rewrite Hrun.
  - intros output l' e Hrun Hjson. now rewrite Hrun, Hjson.
  - intros output l' parsed_output e Hrun Hjson Hinit. now rewrite Hrun, Hjson, Hinit.
  - intros output l' parsed_output ws Hrun Hjson Hinit. now rewrite Hrun, Hjson, Hinit.
Qed.

Local Abbreviation St := (State L Agent ModelMessage).

(** [get_session] registers an empty session when there is none, and leaves
    every other user's session and the runtime alone. *)
Lemma get_session_registered (user_id : string) (st : St) :
  registered_agent (snd (get_session user_id st)) user_id = registered_agent st user_id
  /\ is_Some (sessions (snd (get_session user_id st)) !! user_id)
  /\ (forall other, other <> user_id ->
       sessions (snd (get_session user_id st)) !! other = sessions st !! other)
  /\ llm (snd (get_session user_id st)) = llm st.
Proof.
  unfold get_session, registered_agent.
  destruct (sessions st !! user_id) as [session|] eqn:Hs; simpl.
  - rewrite Hs. repeat split; eauto.
  - rewrite lookup_insert_eq. simpl. repeat split; eauto.
    intros other Hne. now rewrite lookup_insert_ne.
Qed.

(** With an agent in the session, the call is the run of that agent under
    the handler; the registry is not written. *)
Lemma get_dialogue_response_reuses (user_id : string) (known_words new_words : list string)
    (student_response : string) (dialogue_history : list ModelMessage) (st : St)
    (agent : Agent) :
  registered_agent st user_id = Some agent ->
  get_dialogue_response user_id known_words new_words student_response dialogue_history st
  = match agent_run agent student_response dialogue_history (llm st) with
    | (Return reply, l2) => (Return reply, {| sessions := sessions st; llm := l2 |})
    | (Raise e, l2) =>
        (Raise (RuntimeError ("dialogue_agent failed: " +:+ str e)),
         {| sessions := sessions st; llm := l2 |})
    end.
Proof.
  unfold registered_agent. intros Hreg.
  unfold get_dialogue_response, try_except, bind, get_session.
  destruct (sessions st !! user_id) as [session|]; [|discriminate].
  rewrite Hreg. unfold ret, on_llm.
  destruct (agent_run agent student_response dialogue_history (llm st)) as [[reply|e] l2];
    reflexivity.
Qed.

(** Without one, the prompt is formatted, the agent created and stored in
    the user's session, and then run; each step that raises ends the call
    under the handler. *)
Lemma get_dialogue_response_builds (user_id : string) (known_words new_words : list string)
    (student_response : string) (dialogue_history : list ModelMessage) (st : St) :
  registered_agent st user_id = None ->
  get_dialogue_response user_id known_words new_words student_response dialogue_history st
  = let st0 := snd (get_session user_id st) in
    match DIALOGUE_AGENT_PROMPT_format (json_dumps known_words) (json_dumps new_words) with
    | Raise e => (Raise (RuntimeError ("dialogue_agent failed: " +:+ str e)), st0)
    | Return prompt =>
        match create_dialogue_agent prompt (llm st) with
        | (Raise e, l1) =>
            (Raise (RuntimeError ("dialogue_agent failed: " +:+ str e)),
             {| sessions := sessions st0; llm := l1 |})
        | (Return agent, l1) =>
            let st1 :=
              snd (set_dialogue_agent user_id agent {| sessions := sessions st0; llm := l1 |}) in
            match agent_run agent student_response dialogue_history l1 with
            | (Return reply, l2) => (Return reply, {| sessions := sessions st1; llm := l2 |})
            | (Raise e, l2) =>
                (Raise (RuntimeError ("dialogue_agent failed: " +:+ str e)),
                 {| sessions := sessions st1; llm := l2 |})
            end
        end
    end.
Proof.
  unfold registered_agent. intros Hreg.
  unfold get_dialogue_response, try_except, bind, get_session.
  destruct (sessions st !! user_id) as [session|]; simpl.
  - rewrite Hreg. unfold lift.
    destruct (DIALOGUE_AGENT_PROMPT_format _ _) as [prompt|e]; [|reflexivity].
    unfold on_llm. simpl.
    destruct (create_dialogue_agent prompt (llm st)) as [[agent|e] l1]; [|reflexivity].
    simpl.
    destruct (agent_run agent student_response dialogue_history l1) as [[reply|e] l2];
      reflexivity.
  - unfold lift.
    destruct (DIALOGUE_AGENT_PROMPT_format _ _) as [prompt|e]; [|reflexivity].
    unfold on_llm. simpl.
    destruct (create_dialogue_agent prompt (llm st)) as [[agent|e] l1]; [|reflexivity].
    simpl.
    destruct (agent_run agent student_response dialogue_history l1) as [[reply|e] l2];
      reflexivity.
Qed.

(** Storing the agent writes the user's session only. *)
Lemma set_dialogue_agent_registered (user_id : string) (agent : Agent) (st : St) :
  is_Some (sessions st !! user_id) ->
  registered_agent (snd (set_dialogue_agent user_id agent st)) user_id = Some agent
  /\ (forall other, other <> user_id ->
       sessions (snd (set_dialogue_agent user_id agent st)) !! other = sessions st !! other).
Proof.
  intros [session Hs]. unfold registered_agent, set_dialogue_agent. simpl. split.
  - rewrite lookup_alter_eq, Hs. reflexivity.
  - intros other Hne. now rewrite lookup_alter_ne.
Qed.

(** C10.  On a call for a user whose session holds no agent, once the
    prompt template has been formatted with the JSON text of the two word
    lists and an agent created from it, that agent is stored in the user's
    session (other sessions are untouched) and is the one that is run.  On a
    call for a user whose session holds an agent, that agent is run, the
    registry is left as it was, and the word lists play no part.  Whenever
    the call raises, it raises a [RuntimeError] whose message is
    "dialogue_agent failed: " followed by the text of the cause. *)
Theorem dialogue_agent_is_built_once (user_id : string) (known_words new_words : list string)
    (student_response : string) (dialogue_history : list ModelMessage) (st : St) :
  let out :=
    get_dialogue_response user_id known_words new_words student_response dialogue_history st in
  (registered_agent st user_id = None ->
   forall prompt agent l1,
     DIALOGUE_AGENT_PROMPT_format (json_dumps known_words) (json_dumps new_words)
     = Return prompt ->
     create_dialogue_agent prompt (llm st) = (Return agent, l1) ->
     registered_agent (snd out) user_id = Some agent
     /\ (forall other, other <> user_id ->
          sessions (snd out) !! other = sessions st !! other)
     /\ (forall reply l2,
          agent_run agent student_response dialogue_history l1 = (Return reply, l2) ->
          fst out = Return reply /\ llm (snd out) = l2)
     /\ (forall e l2,
          agent_run agent student_response dialogue_history l1 = (Raise e, l2) ->
          fst out = Raise (RuntimeError ("dialogue_agent failed: " +:+ str e))
          /\ llm (snd out) = l2))
  /\ (forall agent,
       registered_agent st user_id = Some agent ->
       sessions (snd out) = sessions st
       /\ (forall known_words' new_words',
            get_dialogue_response user_id known_words' new_words'
              student_response dialogue_history st = out)
       /\ (forall reply l2,
            agent_run agent student_response dialogue_history (llm st) = (Return reply, l2) ->
            fst out = Return reply /\ llm (snd out) = l2)
       /\ (forall e l2,
            agent_run agent student_response dialogue_history (llm st) = (Raise e, l2) ->
            fst out = Raise (RuntimeError ("dialogue_agent failed: " +:+ str e))
            /\ llm (snd out) = l2))
  /\ (forall e,
       fst out = Raise e ->
       exists cause, e = RuntimeError ("dialogue_agent failed: " +:+ str cause)).
Proof.
  intros out. split; [|split].
  - intros Hnone prompt agent l1 Hformat Hcreate. subst out.
    rewrite (get_dialogue_response_builds _ _ _ _ _ _ Hnone). cbv zeta.
    rewrite Hformat, Hcreate.
    destruct (get_session_registered user_id st) as (_ & Hsome & Hother & _).
    destruct (set_dialogue_agent_registered user_id agent
                {| sessions := sessions (snd (get_session user_id st)); llm := l1 |} Hsome)
      as (Hreg & Hother').
    assert (Hkeep : forall other, other <> user_id ->
              sessions (snd (set_dialogue_agent user_id agent
                {| sessions := sessions (snd (get_session user_id st)); llm := l1 |}))
                !! other = sessions st !! other).
    { intros other Hne. rewrite (Hother' other Hne). simpl. now apply Hother. }
    destruct (agent_run agent student_response dialogue_history l1) as [[reply|e] l2];
      (split; [exact Hreg|]); (split; [exact Hkeep|]);
      split; intros ? ? Heq; inversion Heq; subst; split; reflexivity.
  - intros agent Hreg. subst out.
    rewrite (get_dialogue_response_reuses _ known_words new_words _ _ _ _ Hreg).
    split; [|split].
    + destruct (agent_run agent student_response dialogue_history (llm st))
        as [[reply|e] l2]; reflexivity.
    + intros known_words' new_words'.
      apply (get_dialogue_response_reuses _ known_words' new_words' _ _ _ _ Hreg).
    + destruct (agent_run agent student_response dialogue_history (llm st))
        as [[reply|e] l2];
        split; intros ? ? Heq; inversion Heq; subst; split; reflexivity.
  - intros e. subst out. unfold get_dialogue_response, try_except.
    match goal with
    | |- context [match ?body st with _ => _ end] =>
        destruct (body st) as [[reply|cause] st']
    end; simpl.
    + discriminate.
    + intros [= <-]. now exists cause.
Qed.

End Generic.

Import Reference Scenario.

Lemma suggest_new_words_wraps_failures_witness :
  fst (suggest_new_words ["chat"] llm_down)
  = Raise (RuntimeError "words_agent failed: status_code: 503")
  /\ fst (suggest_new_words ["chat"] llm_empty_output)
     = Raise (RuntimeError "words_agent failed: Expecting value: line 1 column 1 (char 0)")
  /\ fst (suggest_new_words ["chat"] llm_bad_shape)
     = Raise (RuntimeError "words_agent failed: 1 validation error for WordSuggestion")
  /\ fst (suggest_new_words ["chat"] llm0)
     = Return {| new_words := ["chien"; "maison"]; usages := ∅ |}.
Proof.
  split; [|split; [|split]].
  - destruct (suggest_new_words_wraps_failures ["chat"] llm_down) as (Hrun & _).
    rewrite (Hrun (OtherError "ModelHTTPError" "status_code: 503") _ eq_refl).
    reflexivity.
  - destruct (suggest_new_words_wraps_failures ["chat"] llm_empty_output)
      as (_ & Hjson & _).
    rewrite (Hjson "" _
               (OtherError "JSONDecodeError" "Expecting value: line 1 column 1 (char 0)")
               eq_refl eq_refl).
    reflexivity.
  - destruct (suggest_new_words_wraps_failures ["chat"] llm_bad_shape)
      as (_ & _ & Hinit & _).
    rewrite (Hinit "chien " _ ["chien"; ""]
               (OtherError "ValidationError" "1 validation error for WordSuggestion")
               eq_refl eq_refl eq_refl).
    reflexivity.
  - destruct (suggest_new_words_wraps_failures ["chat"] llm0) as (_ & _ & _ & Hok).
    rewrite (Hok "chien maison" _ ["chien"; "maison"]
               {| new_words := ["chien"; "maison"]; usages := ∅ |}
               eq_refl eq_refl eq_refl).
    reflexivity.
Defined.

Lemma dialogue_agent_is_built_once_witness :
  registered_agent state0 "u1" = None
  /\ registered_agent state1 "u1"
     = Some ("Known words: " +:+ json_dumps ["chat"] +:+ "; new words: "
             +:+ json_dumps ["chien"])
  /\ sessions (snd (get_dialogue_response "u1" ["maison"] [] "oui" [] state1))
     = sessions state1.
Proof.
  split; [reflexivity|]. split.
  - destruct (dialogue_agent_is_built_once "u1" ["chat"] ["chien"] "salut" [] state0)
      as (Hbuild & _).
    destruct (Hbuild eq_refl
                ("Known words: " +:+ json_dumps ["chat"] +:+ "; new words: "
                 +:+ json_dumps ["chien"])
                ("Known words: " +:+ json_dumps ["chat"] +:+ "; new words: "
                 +:+ json_dumps ["chien"])
                llm0 eq_refl eq_refl) as (Hreg & _).
    exact Hreg.
  - destruct (dialogue_agent_is_built_once "u1" ["maison"] [] "oui" [] state1)
      as (_ & Hreuse & _).
    destruct (Hreuse ("Known words: " +:+ json_dumps ["chat"] +:+ "; new words: "
                      +:+ json_dumps ["chien"])) as (Hsessions & _).
    + vm_compute. reflexivity.
    + exact Hsessions.
Defined.

End LlmServiceSpec.

(** ** Further properties of the word endpoints *)

Module WordsApiMore.

Import WordsApi.

Lemma find_id_Some (words : list WordResponse) (word_id : string) (r : WordResponse) :
  In r words -> wr_id r = word_id ->
  exists r', List.find (fun w => String.eqb (wr_id w) word_id) words = Some r'.
Proof.
  induction words as [|r0 words IH]; intros Hin Hid; [destruct Hin|]. simpl.
  destruct (String.eqb_spec (wr_id r0) word_id) as [Heq|Hne]; [eauto|].
  destruct Hin as [->|Hin]; [contradiction|]. now apply IH.
Qed.

Section Outcomes.

Context {W : Type} `{Backend W}.


(** An [HTTPException] raised by the store passes through the update and
    delete endpoints unchanged, code and detail, while the read endpoint
    turns the same exception into a 500. *)
Theorem store_http_error_passes_update_and_delete (word_id : string) (updates : WordUpdate)
    (current_user : User) (w w' : W) (code : Z) (detail : string) :
  (update_word word_id updates w = (Raise (HTTPException code detail), w') ->
   update_word_endpoint word_id updates current_user w
   = (Raise (HTTPException code detail), w'))
  /\ (get_user_words (user_id current_user) w = (Raise (HTTPException code detail), w') ->
      delete_word_endpoint word_id current_user w
      = (Raise (HTTPException code detail), w')
      /\ get_user_words_endpoint (user_id current_user) current_user w
         = (Raise (HTTPException 500
                     ("Failed to fetch words: " +:+ str (HTTPException code detail))), w')).
Proof.
  split.
  - intros Hupd.
    unfold update_word_endpoint, try_except_reraise_http, try_except, bind.
    now rewrite Hupd.
  - intros Hget. split.
    + unfold delete_word_endpoint, try_except_reraise_http, try_except, bind.
      now rewrite Hget.
    + unfold get_user_words_endpoint. rewrite (negb_eqb_eq _ _ eq_refl).
      unfold try_except, bind. now rewrite Hget.
Qed.

(** The delete endpoint answers 200, 404 or 500, or else passes on an
    [HTTPException] that the store itself raised; it has no 403 of its own. *)
Theorem delete_answers_200_404_500_or_store_error (word_id : string) (current_user : User)
    (w : W) :
  status_of (fst (delete_word_endpoint word_id current_user w)) = 200
  \/ status_of (fst (delete_word_endpoint word_id current_user w)) = 404
  \/ status_of (fst (delete_word_endpoint word_id current_user w)) = 500
  \/ exists code detail w1 w2,
       (get_user_words (user_id current_user) w = (Raise (HTTPException code detail), w2)
        \/ delete_word word_id w1 = (Raise (HTTPException code detail), w2))
       /\ delete_word_endpoint word_id current_user w
          = (Raise (HTTPException code detail), w2).
Proof.
  unfold delete_word_endpoint, try_except_reraise_http, try_except, bind.
  destruct (get_user_words (user_id current_user) w) as [[words|e] w1] eqn:Hget.
  - destruct (List.find _ words); [|simpl; auto].
    destruct (delete_word word_id w1) as [[[|]|e] w2] eqn:Hdel; simpl; auto.
    destruct e; simpl; auto.
    right; right; right. exists status_code, detail, w1, w2. auto.
  - destruct e; simpl; auto.
    right; right; right. exists status_code, detail, w, w1. auto.
Qed.

(** The update endpoint answers 200, 403, 404 or 500, or else passes on an
    [HTTPException] that the store's update raised. *)
Theorem update_answers_200_403_404_500_or_store_error (word_id : string)
    (updates : WordUpdate) (current_user : User) (w : W) :
  status_of (fst (update_word_endpoint word_id updates current_user w)) = 200
  \/ status_of (fst (update_word_endpoint word_id updates current_user w)) = 403
  \/ status_of (fst (update_word_endpoint word_id updates current_user w)) = 404
  \/ status_of (fst (update_word_endpoint word_id updates current_user w)) = 500
  \/ exists code detail w',
       update_word word_id updates w = (Raise (HTTPException code detail), w')
       /\ update_word_endpoint word_id updates current_user w
          = (Raise (HTTPException code detail), w').
Proof.
  unfold update_word_endpoint, try_except_reraise_http, try_except, bind.
  destruct (update_word word_id updates w) as [[[row|]|e] w'] eqn:Hupd.
  - destruct (negb _); simpl; auto.
  - simpl; auto.
  - destruct e; simpl; auto.
    right; right; right; right. exists status_code, detail, w'. auto.
Qed.

(** A dialogue message or a new-words request for another user is refused
    with 403 before the dialogue turn or the suggestion service runs: the
    state is the one the request found. *)
Theorem mismatch_runs_no_service (user_id' : string) (message : DialogueMessage)
    (current_user : User) (w : W) :
  (user_id current_user <> dm_user_id message ->
   chat_with_ai message current_user w
   = (Raise (HTTPException 403 "Can only send messages for yourself"), w))
  /\ (user_id current_user <> user_id' ->
      get_new_words_endpoint user_id' current_user w
      = (Raise (HTTPException 403 "Can only access your own new words"), w)).
Proof.
  split; intros Hne.
  - unfold chat_with_ai. now rewrite (negb_eqb_ne _ _ Hne).
  - unfold get_new_words_endpoint. now rewrite (negb_eqb_ne _ _ Hne).
Qed.

(** In the new-words endpoint a failure of the suggestion service is not
    hidden: it is answered 500 with the text of the exception in the detail.
    A service that returns [None] gives the empty list. *)
Theorem new_words_surfaces_service_failure (user_id' : string) (current_user : User)
    (w w' : W) :
  user_id current_user = user_id' ->
  (forall e,
     suggest_new_words_for_user user_id' w = (Raise e, w') ->
     get_new_words_endpoint user_id' current_user w
     = (Raise (HTTPException 500 ("Failed to fetch new words: " +:+ str e)), w'))
  /\ (suggest_new_words_for_user user_id' w = (Return None, w') ->
      get_new_words_endpoint user_id' current_user w = (Return [], w')).
Proof.
  intros Heq. split.
  - intros e Hsug. rewrite (WordsApiSpec.get_new_words_endpoint_matching _ _ _ Heq).
    now rewrite Hsug.
  - intros Hsug. rewrite (WordsApiSpec.get_new_words_endpoint_matching _ _ _ Heq).
    now rewrite Hsug.
Qed.

(** When the requested id is among the caller's listed words, the outcome is
    that of the store's delete: [True] gives the success message, [False]
    (the word went away in between) gives 404, and an exception that is not
    an [HTTPException] gives 500 with its text in the detail. *)
Theorem delete_of_listed_word (word_id : string) (current_user : User)
    (w w1 w2 : W) (words : list WordResponse) (row : WordResponse) :
  get_user_words (user_id current_user) w = (Return words, w1) ->
  In row words -> wr_id row = word_id ->
  (delete_word word_id w1 = (Return true, w2) ->
   delete_word_endpoint word_id current_user w = (Return "Word deleted successfully", w2))
  /\ (delete_word word_id w1 = (Return false, w2) ->
      delete_word_endpoint word_id current_user w
      = (Raise (HTTPException 404 "Word not found"), w2))
  /\ (forall e,
        is_HTTPException e = false ->
        delete_word word_id w1 = (Raise e, w2) ->
        delete_word_endpoint word_id current_user w
        = (Raise (HTTPException 500 ("Failed to delete word: " +:+ str e)), w2)).
Proof.
  intros Hget Hin Hid.
  destruct (find_id_Some words word_id row Hin Hid) as [r' Hfind].
  unfold delete_word_endpoint, try_except_reraise_http, try_except, bind.
  rewrite Hget, Hfind. repeat split.
  - intros Hdel. now rewrite Hdel.
  - intros Hdel. now rewrite Hdel.
  - intros e Hhttp Hdel. now rewrite Hdel, Hhttp.
Qed.

(** The update endpoint answers 404 when the store finds no word to update,
    returns the updated word when it is the caller's, and answers 500 with
    the text of the exception when the store raises anything but an
    [HTTPException]. *)
Theorem update_of_missing_or_own_word (word_id : string) (updates : WordUpdate)
    (current_user : User) (w w' : W) :
  (update_word word_id updates w = (Return None, w') ->
   update_word_endpoint word_id updates current_user w
   = (Raise (HTTPException 404 "Word not found"), w'))
  /\ (forall row,
        update_word word_id updates w = (Return (Some row), w') ->
        wr_user_id row = user_id current_user ->
        update_word_endpoint word_id updates current_user w = (Return row, w'))
  /\ (forall e,
        is_HTTPException e = false ->
        update_word word_id updates w = (Raise e, w') ->
        update_word_endpoint word_id updates current_user w
        = (Raise (HTTPException 500 ("Failed to update word: " +:+ str e)), w')).
Proof.
  unfold update_word_endpoint, try_except_reraise_http, try_except, bind.
  repeat split.
  - intros Hupd. now rewrite Hupd.
  - intros row Hupd Hown. now rewrite Hupd, (negb_eqb_eq _ _ Hown).
  - intros e Hhttp Hupd. now rewrite Hupd, Hhttp.
Qed.

(** The loop reads the clock once for each entry it appends, and stamps the
    entries with the successive readings. *)
Lemma new_word_objs_loop_clock (user_id' : string) (ws : WordSuggestion)
    (words : list string) :
  forall (acc : list WordResponse) (w : W),
  exists objs,
    new_word_objs_loop user_id' ws words acc w
    = (Return (acc ++ objs)%list, Nat.iter (length objs) (fun s => snd (datetime_now s)) w)
    /\ length objs = length (filter (fun word => is_Some (usages ws !! word)) words)
    /\ map wr_created_at objs
       = map (fun i => fst (datetime_now (Nat.iter i (fun s => snd (datetime_now s)) w)))
           (seq 0 (length objs)).
Proof.
  set (tick := fun s : W => snd (datetime_now s)).
  induction words as [|word rest IH]; intros acc w; simpl.
  - exists []. rewrite app_nil_r. repeat split.
  - destruct (usages ws !! word) as [usage|] eqn:Hu.
    + unfold bind, total. destruct (datetime_now w) as [created_at w1] eqn:Hnow.
      assert (Htick : tick w = w1) by (unfold tick; now rewrite Hnow).
      set (entry := {| wr_id := "new_" +:+ word; wr_user_id := user_id';
                       wr_word := word; wr_translation := translation usage;
                       wr_example := fr usage; wr_created_at := created_at |}).
      destruct (IH (acc ++ [entry])%list w1) as (objs & Hloop & Hlen & Hstamps).
      exists (entry :: objs). split; [|split].
      * rewrite Hloop, <- app_assoc. cbn [length].
        rewrite Nat.iter_succ_r, Htick. reflexivity.
      * rewrite filter_cons_True by (rewrite Hu; eauto). simpl. now rewrite Hlen.
      * cbn [length seq map]. change (Nat.iter 0 tick w) with w.
        rewrite Hnow. cbn [fst]. f_equal.
        rewrite Hstamps, <- seq_shift, map_map.
        apply map_ext. intros i. rewrite Nat.iter_succ_r, Htick. reflexivity.
    + destruct (IH acc w) as (objs & Hloop & Hlen & Hstamps).
      exists objs. split; [exact Hloop|]. split; [|exact Hstamps].
      rewrite filter_cons_False; [exact Hlen|].
      rewrite Hu. intros [? ?]. discriminate.
Qed.

(** On a successful new-words request for a suggestion, the state the
    service left is changed only by clock readings, one for each returned
    entry; there is one entry for each suggested word that has a usage, and
    the entries carry the successive readings as [created_at]. *)
Theorem new_words_read_clock_once_per_entry (user_id' : string) (current_user : User)
    (w w' : W) (ws : WordSuggestion) :
  user_id current_user = user_id' ->
  suggest_new_words_for_user user_id' w = (Return (Some ws), w') ->
  exists objs,
    get_new_words_endpoint user_id' current_user w
    = (Return objs, Nat.iter (length objs) (fun s => snd (datetime_now s)) w')
    /\ length objs = length (words_with_usage ws)
    /\ map wr_created_at objs
       = map (fun i => fst (datetime_now (Nat.iter i (fun s => snd (datetime_now s)) w')))
           (seq 0 (length objs)).
Proof.
  intros Heq Hsug.
  rewrite (WordsApiSpec.get_new_words_endpoint_matching _ _ _ Heq), Hsug.
  destruct (new_word_objs_loop_clock user_id' ws (new_words ws) [] w')
    as (objs & Hloop & Hlen & Hstamps).
  exists objs. split; [exact Hloop|]. split; assumption.
Qed.

End Outcomes.

Import Reference Scenario.

Lemma store_http_error_passes_update_and_delete_witness :
  status_of (fst (update_word_endpoint (H := Outage.backend) "w1" rename alice Outage.teapot))
  = 418
  /\ status_of (fst (delete_word_endpoint (H := Outage.backend) "w1" alice Outage.teapot))
     = 418
  /\ status_of (fst (get_user_words_endpoint (H := Outage.backend) "u1" alice Outage.teapot))
     = 500.
Proof.
  destruct (store_http_error_passes_update_and_delete (H := Outage.backend)
              "w1" rename alice Outage.teapot
              {| Outage.failure := HTTPException 418 "I'm a teapot"; Outage.calls := 1 |}
              418 "I'm a teapot") as (Hupdate & Hdelete).
  destruct (Hdelete eq_refl) as (Hdel & Hread).
  rewrite (Hupdate eq_refl), Hdel.
  change "u1" with (user_id alice). rewrite Hread.
  repeat split.
Defined.

Lemma mismatch_runs_no_service_witness :
  chat_with_ai salut bob world1
  = (Raise (HTTPException 403 "Can only send messages for yourself"), world1)
  /\ get_new_words_endpoint "u1" bob world1
     = (Raise (HTTPException 403 "Can only access your own new words"), world1).
Proof.
  destruct (mismatch_runs_no_service (W := World) "u1" salut bob world1) as (Hchat & Hnew).
  split; [apply Hchat | apply Hnew]; discriminate.
Defined.

Lemma new_words_surfaces_service_failure_witness :
  get_new_words_endpoint "u1" alice world1_no_suggestions
  = (Raise (HTTPException 500
              "Failed to fetch new words: words_agent failed: timeout"),
     world1_no_suggestions).
Proof.
  destruct (new_words_surfaces_service_failure (W := World) "u1" alice
              world1_no_suggestions world1_no_suggestions eq_refl) as (Hfail & _).
  apply (Hfail (RuntimeError "words_agent failed: timeout")). reflexivity.
Defined.

Lemma delete_of_listed_word_witness :
  fst (delete_word_endpoint "w1" alice world1) = Return "Word deleted successfully"
  /\ rows (snd (delete_word_endpoint "w1" alice world1)) = [chien_row].
Proof.
  destruct (delete_of_listed_word (W := World) "w1" alice world1 world1
              (snd (Reference.ref_delete_word "w1" world1)) [chat_row] chat_row)
    as (Hdeleted & _).
  - vm_compute. reflexivity.
  - now left.
  - reflexivity.
  - rewrite Hdeleted; [split; vm_compute; reflexivity|]. vm_compute. reflexivity.
Defined.

Lemma update_of_missing_or_own_word_witness :
  fst (update_word_endpoint "w9" rename alice world1)
  = Raise (HTTPException 404 "Word not found")
  /\ fst (update_word_endpoint "w1" rename alice world1)
     = Return (Reference.apply_updates rename chat_row).
Proof.
  split.
  - destruct (update_of_missing_or_own_word (W := World) "w9" rename alice world1 world1)
      as (Hmissing & _).
    rewrite Hmissing; [reflexivity|]. vm_compute. reflexivity.
  - destruct (update_of_missing_or_own_word (W := World) "w1" rename alice world1
                (snd (Reference.ref_update_word "w1" rename world1)))
      as (_ & Hown & _).
    rewrite (Hown (Reference.apply_updates rename chat_row)); [reflexivity| |].
    + vm_compute. reflexivity.
    + reflexivity.
Defined.

Lemma new_words_read_clock_once_per_entry_witness :
  exists objs,
    fst (get_new_words_endpoint "u1" alice world1) = Return objs
    /\ clock (snd (get_new_words_endpoint "u1" alice world1))
       = clock world1 + Z.of_nat (length objs)
    /\ length objs = 1%nat.
Proof.
  destruct (new_words_read_clock_once_per_entry (W := World) "u1" alice world1 world1
              chien_suggestion) as (objs & Hget & Hlen & _).
  - reflexivity.
  - vm_compute. reflexivity.
  - exists objs. rewrite Hget, Hlen. repeat split.
Defined.

End WordsApiMore.

(** ** Further properties of the LLM services *)

Module LlmServiceMore.

Import LlmService Serving.

(** Every character the encoder emits for one character is printable. *)
Lemma json_escape_printable (c : ascii) :
  Forall (fun c' => (32 <= N_of_ascii c')%N) (list_ascii_of_string (json_escape c)).
Proof.
  destruct c as [[] [] [] [] [] [] [] []]; vm_compute;
    repeat constructor; discriminate.
Qed.

Lemma list_ascii_of_string_app (s1 s2 : string) :
  list_ascii_of_string (s1 +:+ s2)
  = (list_ascii_of_string s1 ++ list_ascii_of_string s2)%list.
Proof. induction s1 as [|c s1 IH]; simpl; [reflexivity|]. now rewrite IH. Qed.

Lemma json_escape_all_printable (s : string) :
  Forall (fun c => (32 <= N_of_ascii c)%N) (list_ascii_of_string (json_escape_all s)).
Proof.
  induction s as [|c s IH]; simpl; [constructor|].
  rewrite list_ascii_of_string_app. apply Forall_app. split; [|exact IH].
  apply json_escape_printable.
Qed.

Lemma json_join_printable (items : list string) :
  Forall (fun item => Forall (fun c => (32 <= N_of_ascii c)%N) (list_ascii_of_string item))
         items ->
  Forall (fun c => (32 <= N_of_ascii c)%N) (list_ascii_of_string (json_join items)).
Proof.
  induction items as [|x [|y rest] IH]; intros Hitems.
  - constructor.
  - now inversion Hitems.
  - inversion Hitems as [|? ? Hx Hrest]; subst.
    change (json_join (x :: y :: rest)) with (x +:+ ", " +:+ json_join (y :: rest)).
    rewrite !list_ascii_of_string_app. apply Forall_app. split; [exact Hx|].
    apply Forall_app. split; [|now apply IH].
    repeat constructor; vm_compute; discriminate.
Qed.

(** The JSON text of a word list has no control character in it, whatever
    the words contain: a line break or a tab inside a word reaches the
    prompt only in escaped form. *)
Theorem json_dumps_has_no_control_character (words : list string) :
  Forall (fun c => (32 <= N_of_ascii c)%N) (list_ascii_of_string (json_dumps words)).
Proof.
  unfold json_dumps. rewrite !list_ascii_of_string_app.
  apply Forall_app. split; [repeat constructor; vm_compute; discriminate|].
  apply Forall_app. split; [|repeat constructor; vm_compute; discriminate].
  apply json_join_printable.
  induction words as [|word words IH]; simpl; constructor; [|exact IH].
  unfold json_dumps_str. cbn [list_ascii_of_string].
  constructor; [vm_compute; discriminate|].
  rewrite list_ascii_of_string_app. apply Forall_app. split.
  - apply json_escape_all_printable.
  - repeat constructor; vm_compute; discriminate.
Qed.

Section Registry.

Context {L Agent ModelMessage Json : Type} `{AgentRuntime L Agent ModelMessage Json}.

Local Abbreviation St := (State L Agent ModelMessage).

(** What a call does to the registry, whether it returns or raises: every
    other user's session is as before; the caller's session exists, holds
    the history it held (none, for a new session), and still holds the agent
    it held. *)
Lemma sessions_after_call (user_id : string) (known_words new_words : list string)
    (student_response : string) (dialogue_history : list ModelMessage) (st : St) :
  let out :=
    get_dialogue_response user_id known_words new_words student_response dialogue_history st in
  (forall other, other <> user_id -> sessions (snd out) !! other = sessions st !! other)
  /\ exists session',
       sessions (snd out) !! user_id = Some session'
       /\ message_history session'
          = match sessions st !! user_id with
            | Some session => message_history session
            | None => []
            end
       /\ (forall agent, registered_agent st user_id = Some agent ->
           dialogue_agent session' = Some agent).
Proof.
  intros out. subst out.
  destruct (registered_agent st user_id) as [agent|] eqn:Hreg.
  - rewrite (LlmServiceSpec.get_dialogue_response_reuses _ known_words new_words _ _ _ _ Hreg).
    unfold registered_agent in Hreg.
    destruct (sessions st !! user_id) as [session|] eqn:Hs; [|discriminate].
    destruct (agent_run agent student_response dialogue_history (llm st)) as [[reply|e] l2];
      simpl; (split; [reflexivity|]); exists session; rewrite Hs;
      (split; [reflexivity|]); (split; [reflexivity|]); congruence.
  - rewrite (LlmServiceSpec.get_dialogue_response_builds _ known_words new_words _ _ _ Hreg).
    cbv zeta.
    assert (Hst0 :
      (forall other, other <> user_id ->
         sessions (snd (get_session user_id st)) !! other = sessions st !! other)
      /\ exists session0,
           sessions (snd (get_session user_id st)) !! user_id = Some session0
           /\ message_history session0
              = match sessions st !! user_id with
                | Some session => message_history session
                | None => []
                end).
    { unfold get_session. unfold registered_agent in Hreg.
      destruct (sessions st !! user_id) as [session|] eqn:Hs; simpl.
      - split; [reflexivity|]. exists session. now rewrite Hs.
      - split; [intros other Hne; now rewrite lookup_insert_ne|].
        eexists. rewrite lookup_insert_eq. split; reflexivity. }
    destruct Hst0 as (Hother & session0 & Hs0 & Hhist0).
    assert (Hnone : forall agent, (None : option Agent) = Some agent ->
                      dialogue_agent session0 = Some agent) by discriminate.
    destruct (DIALOGUE_AGENT_PROMPT_format _ _) as [prompt|e]; simpl;
      [|split; [exact Hother|]; exists session0; auto].
    destruct (create_dialogue_agent prompt (llm st)) as [[agent|e] l1]; simpl;
      [|split; [exact Hother|]; exists session0; auto].
    destruct (agent_run agent student_response dialogue_history l1) as [[reply|e] l2];
      simpl;
      (split; [intros other Hne; rewrite lookup_alter_ne by congruence; now apply Hother|]);
      rewrite lookup_alter_eq, Hs0; simpl; eexists; (split; [reflexivity|]);
      (split; [exact Hhist0|]); discriminate.
Qed.

(** The registry changes at the caller's key at most: after a call, returned
    or raised, its keys are those it had plus the caller's user id, and every
    other user's session is the one it was.  A call that fails still leaves a
    session registered for the caller. *)
Theorem registry_changes_only_at_caller (user_id : string) (known_words new_words : list string)
    (student_response : string) (dialogue_history : list ModelMessage) (st : St) :
  dom (sessions (snd (get_dialogue_response user_id known_words new_words
                        student_response dialogue_history st)))
  = {[user_id]} ∪ dom (sessions st)
  /\ forall other, other <> user_id ->
       sessions (snd (get_dialogue_response user_id known_words new_words
                        student_response dialogue_history st)) !! other
       = sessions st !! other.
Proof.
  destruct (sessions_after_call user_id known_words new_words student_response
              dialogue_history st) as (Hother & session' & Hs' & _).
  split; [|exact Hother].
  apply set_eq. intros u. rewrite elem_of_union, elem_of_singleton, !elem_of_dom.
  destruct (decide (u = user_id)) as [->|Hne].
  - rewrite Hs'. split; eauto.
  - rewrite (Hother u Hne). split; [auto|]. intros [Heq|Hu]; [contradiction|exact Hu].
Qed.

(** The service never writes a message history: a session that existed
    before the call holds the same history after it, returned or raised. *)
Theorem histories_are_never_written (user_id : string) (known_words new_words : list string)
    (student_response : string) (dialogue_history : list ModelMessage) (st : St)
    (u : string) (session : DialogueSession Agent ModelMessage) :
  sessions st !! u = Some session ->
  exists session',
    sessions (snd (get_dialogue_response user_id known_words new_words
                     student_response dialogue_history st)) !! u = Some session'
    /\ message_history session' = message_history session.
Proof.
  intros Hs.
  destruct (sessions_after_call user_id known_words new_words student_response
              dialogue_history st) as (Hother & session' & Hs' & Hhist & _).
  destruct (decide (u = user_id)) as [->|Hne].
  - exists session'. split; [exact Hs'|]. now rewrite Hhist, Hs.
  - exists session. split; [|reflexivity]. now rewrite (Hother u Hne).
Qed.

(** One call keeps every agent that is registered. *)
Lemma call_keeps_agents (user_id : string) (known_words new_words : list string)
    (student_response : string) (dialogue_history : list ModelMessage) (st : St)
    (u : string) (agent : Agent) :
  registered_agent st u = Some agent ->
  registered_agent (snd (get_dialogue_response user_id known_words new_words
                           student_response dialogue_history st)) u = Some agent.
Proof.
  intros Hreg.
  destruct (sessions_after_call user_id known_words new_words student_response
              dialogue_history st) as (Hother & session' & Hs' & _ & Hagent).
  destruct (decide (u = user_id)) as [->|Hne].
  - unfold registered_agent at 1. rewrite Hs'. now apply Hagent.
  - unfold registered_agent in *. now rewrite (Hother u Hne).
Qed.

(** Once a user has an agent, no sequence of calls, for that user or for
    others, with whatever word lists, and whether the calls return or raise,
    replaces or removes it. *)
Theorem registered_agents_are_permanent (calls : list (DialogueCall ModelMessage))
    (st : St) (u : string) (agent : Agent) :
  registered_agent st u = Some agent ->
  registered_agent (serve calls st) u = Some agent.
Proof.
  revert st. induction calls as [|c rest IH]; intros st Hreg; simpl; [exact Hreg|].
  apply IH. now apply call_keeps_agents.
Qed.

(** When the template cannot be formatted, or the agent cannot be created,
    the call raises a [RuntimeError] with the text of the cause, and the
    caller's session is left without an agent, so that the next call builds
    one again. *)
Theorem failed_build_leaves_no_agent (user_id : string) (known_words new_words : list string)
    (student_response : string) (dialogue_history : list ModelMessage) (st : St) :
  registered_agent st user_id = None ->
  let out :=
    get_dialogue_response user_id known_words new_words student_response dialogue_history st in
  (forall e,
     DIALOGUE_AGENT_PROMPT_format (json_dumps known_words) (json_dumps new_words) = Raise e ->
     fst out = Raise (RuntimeError ("dialogue_agent failed: " +:+ str e))
     /\ registered_agent (snd out) user_id = None
     /\ llm (snd out) = llm st)
  /\ (forall prompt e l1,
        DIALOGUE_AGENT_PROMPT_format (json_dumps known_words) (json_dumps new_words)
        = Return prompt ->
        create_dialogue_agent prompt (llm st) = (Raise e, l1) ->
        fst out = Raise (RuntimeError ("dialogue_agent failed: " +:+ str e))
        /\ registered_agent (snd out) user_id = None
        /\ llm (snd out) = l1).
Proof.
  intros Hnone out. subst out.
  rewrite (LlmServiceSpec.get_dialogue_response_builds _ _ _ _ _ _ Hnone). cbv zeta.
  destruct (LlmServiceSpec.get_session_registered user_id st) as (Hreg0 & _ & _ & Hllm).
  rewrite Hnone in Hreg0. split.
  - intros e Hformat. rewrite Hformat. simpl. auto.
  - intros prompt e l1 Hformat Hcreate. rewrite Hformat, Hcreate. simpl. auto.
Qed.


End Registry.

Import Reference Scenario MoreScenarios.

Lemma histories_are_never_written_witness :
  exists session',
    sessions (snd (get_dialogue_response "u1" ["chat"] ["chien"] "salut" []
                     state_with_history)) !! "u1" = Some session'
    /\ message_history session' = ["Bonjour !"; "salut"].
Proof.
  apply (histories_are_never_written "u1" ["chat"] ["chien"] "salut" []
           state_with_history "u1"
           {| dialogue_agent := None; message_history := ["Bonjour !"; "salut"] |}).
  vm_compute. reflexivity.
Defined.

Lemma registered_agents_are_permanent_witness :
  registered_agent state1 "u1" = Some first_prompt
  /\ registered_agent (serve later_calls state1) "u1" = Some first_prompt.
Proof.
  assert (Hreg : registered_agent state1 "u1" = Some first_prompt)
    by (vm_compute; reflexivity).
  split; [exact Hreg|].
  apply (registered_agents_are_permanent later_calls state1 "u1" first_prompt Hreg).
Defined.

Lemma failed_build_leaves_no_agent_witness :
  fst (get_dialogue_response (H := Outage.bad_template_runtime)
         "u1" ["chat"] ["chien"] "salut" [] state0)
  = Raise (RuntimeError "dialogue_agent failed: 'level'")
  /\ fst (get_dialogue_response (H := Outage.no_model_runtime)
            "u1" ["chat"] ["chien"] "salut" [] state0)
     = Raise (RuntimeError "dialogue_agent failed: Unknown model: none").
Proof.
  split.
  - destruct (failed_build_leaves_no_agent (H := Outage.bad_template_runtime)
                "u1" ["chat"] ["chien"] "salut" [] state0 eq_refl) as (Hformat & _).
    destruct (Hformat (OtherError "KeyError" "'level'") eq_refl) as (Hout & _).
    exact Hout.
  - destruct (failed_build_leaves_no_agent (H := Outage.no_model_runtime)
                "u1" ["chat"] ["chien"] "salut" [] state0 eq_refl) as (_ & Hcreate).
    destruct (Hcreate first_prompt (OtherError "UserError" "Unknown model: none") llm0
                eq_refl eq_refl) as (Hout & _).
    exact Hout.
Defined.


End LlmServiceMore.
